(** * terminal_tattoo: the colour, position, size and layout checks

    A shallow embedding of [terminal_tattoo.py].  The argparse namespace is a
    finite map from attribute names to Python values, functions that can
    raise or call [exit] return an [outcome], and the three regular
    expressions of the program are run by a small backtracking matcher.
    The colorizing log handler is a function of the formatted message, the
    level of the record and the stream. *)

From Stdlib Require Import ZArith String Ascii List Lia DecimalString.
From stdpp Require Import base option strings gmap.
Import ListNotations.

Local Open Scope string_scope.
Local Open Scope Z_scope.

(** ** Python values and outcomes *)

(** The values an attribute of the parsed namespace can hold. *)
Inductive value : Type :=
| VNone
| VBool (b : bool)
| VInt (z : Z)
| VStr (s : string)
| VList (l : list string).

(** The exceptions the modelled functions can raise. *)
Inductive exn : Type :=
| TypeError
| AttributeError
| KeyError
| ValueError.

(** A call returns, raises, or leaves the process through [exit(code)]. *)
Inductive outcome (A : Type) : Type :=
| Ret (a : A)
| Raise (e : exn)
| Exit (code : Z).

Arguments Ret {A} a.
Arguments Raise {A} e.
Arguments Exit {A} code.

#[export] Instance outcome_ret : MRet outcome := fun _ a => Ret a.

#[export] Instance outcome_bind : MBind outcome := fun _ _ k m =>
  match m with
  | Ret a => k a
  | Raise e => Raise e
  | Exit code => Exit code
  end.

(** [for x in xs: acc = body(acc, x)] with no [break]. *)
Fixpoint for_each {A B : Type} (body : B -> A -> outcome B) (xs : list A)
    (acc : B) : outcome B :=
  match xs with
  | [] => Ret acc
  | x :: xs' => acc' ← body acc x; for_each body xs' acc'
  end.

(** Truth value of a Python object, as [if v:] tests it. *)
Definition truthy (v : value) : bool :=
  match v with
  | VNone => false
  | VBool b => b
  | VInt z => negb (z =? 0)
  | VStr s => negb (String.eqb s "")
  | VList l => match l with [] => false | _ => true end
  end.

(** [v == True]: booleans compare by value and [1 == True] holds. *)
Definition eq_True (v : value) : bool :=
  match v with
  | VBool b => b
  | VInt z => z =? 1
  | _ => false
  end.

(** [v is not None]. *)
Definition is_not_None (v : value) : bool :=
  match v with
  | VNone => false
  | _ => true
  end.

(** A function of the [re] module given a non-string raises TypeError. *)
Definition str_of (v : value) : outcome string :=
  match v with
  | VStr s => Ret s
  | _ => Raise TypeError
  end.

(** [getattr(args, name)] on a namespace. *)
Definition getattr (args : gmap string value) (name : string) : outcome value :=
  match args !! name with
  | Some v => Ret v
  | None => Raise AttributeError
  end.

(** [name in args]: [argparse.Namespace.__contains__] tests the attribute
    dictionary for the key, whatever value it holds. *)
Definition contains (args : gmap string value) (name : string) : bool :=
  bool_decide (is_Some (args !! name)).

(** [d[key]] on a dict of strings. *)
Definition dict_get (d : gmap string string) (key : string) : outcome string :=
  match d !! key with
  | Some v => Ret v
  | None => Raise KeyError
  end.

(** ** Regular expressions

    The fragment of [re] the program uses: character classes, greedy [?],
    bounded repetition [{n}], concatenation and capturing groups. *)

Inductive regex : Type :=
| Class (p : ascii -> bool)
| Opt (r : regex)
| Times (n : nat) (r : regex)
| Cat (r1 r2 : regex)
| Group (name : string) (r : regex).

(** The part of [s] consumed when [rest] is what remains of it. *)
Fixpoint take (n : nat) (s : string) : string :=
  match n, s with
  | S n', String c s' => String c (take n' s')
  | _, _ => ""
  end.

Definition consumed (s rest : string) : string :=
  take (String.length s - String.length rest)%nat s.

(** Backtracking match of [r] at the head of [s]; [k] continues with the
    rest of the subject and the groups captured so far. *)
Fixpoint rmatch {A : Type} (r : regex) (s : string)
    (caps : list (string * string))
    (k : string -> list (string * string) -> option A) : option A :=
  match r with
  | Class p =>
      match s with
      | String c s' => if p c then k s' caps else None
      | EmptyString => None
      end
  | Opt r1 =>
      match rmatch r1 s caps k with
      | Some a => Some a
      | None => k s caps
      end
  | Times n r1 =>
      (fix rep (n : nat) (s : string) (caps : list (string * string)) :=
         match n with
         | O => k s caps
         | S n' => rmatch r1 s caps (fun s' caps' => rep n' s' caps')
         end) n s caps
  | Cat r1 r2 =>
      rmatch r1 s caps (fun s' caps' => rmatch r2 s' caps' k)
  | Group name r1 =>
      rmatch r1 s caps (fun s' caps' => k s' ((name, consumed s s') :: caps'))
  end.

(** A match object: [group(0)] and the captured groups. *)
Record match_obj : Type := MatchObj {
  group0 : string;
  groups : list (string * string)
}.

Fixpoint assoc (name : string) (l : list (string * string)) : option string :=
  match l with
  | [] => None
  | (n, v) :: l' => if String.eqb n name then Some v else assoc name l'
  end.

(** [re.match(r, s)]: a match anchored at the start of [s], or None. *)
Definition re_match (r : regex) (s : string) : option match_obj :=
  rmatch r s [] (fun rest caps => Some (MatchObj (consumed s rest) caps)).

(** [re.search(r, s)]: the leftmost position at which [r] matches. *)
Fixpoint re_search (r : regex) (s : string) : option match_obj :=
  match re_match r s with
  | Some m => Some m
  | None =>
      match s with
      | String _ s' => re_search r s'
      | EmptyString => None
      end
  end.

(** [m.group(0)] where [m] may be None. *)
Definition m_group0 (m : option match_obj) : outcome string :=
  match m with
  | Some mo => Ret (group0 mo)
  | None => Raise AttributeError
  end.

(** [m.group(name)] where [m] may be None. *)
Definition m_group (m : option match_obj) (name : string) : outcome string :=
  match m with
  | Some mo =>
      match assoc name (groups mo) with
      | Some v => Ret v
      | None => Raise KeyError
      end
  | None => Raise AttributeError
  end.

(** ** Character classes *)

Definition in_range (lo hi c : ascii) : bool :=
  (N_of_ascii lo <=? N_of_ascii c)%N && (N_of_ascii c <=? N_of_ascii hi)%N.

(** [[0-9a-fA-F]] *)
Definition hex_class (c : ascii) : bool :=
  in_range "0" "9" c || in_range "a" "f" c || in_range "A" "F" c.

(** [[#]] *)
Definition hash_class (c : ascii) : bool := Ascii.eqb c "#".

(** ** Module constants *)

Definition DEFAULT_SIZE : Z := 45.
Definition DEFAULT_POS : string := "tR".
Definition DEFAULT_FGC : string := "fK".
Definition DEFAULT_BGC : string := "bW".

Definition POSITION_CODES : list string :=
  ["pT"; "pTL"; "pTR"; "pB"; "pBL"; "pBR"; "pC"; "pL"; "pR"].

Definition RETINA_HCELL_PIXELS : Z := 14.
Definition RETINA_VCELL_PIXELS : Z := 28.
Definition RETINA_H_OFFSET : Z := 20.
Definition RETINA_V_OFFSET : Z := 14.

Definition EXIT_INVALID_FG : Z := -1.
Definition EXIT_INVALID_BG : Z := -2.
Definition EXIT_DOES_NOT_FIT : Z := -3.

(** ** Colour conversion *)

(** The value of one base-16 digit, as [int(_, 16)] reads it. *)
Definition hex_digit (c : ascii) : option Z :=
  let n := Z.of_N (N_of_ascii c) in
  if in_range "0" "9" c then Some (n - 48)
  else if in_range "a" "f" c then Some (n - 87)
  else if in_range "A" "F" c then Some (n - 55)
  else None.

Fixpoint int16_digits (acc : Z) (s : string) : option Z :=
  match s with
  | EmptyString => Some acc
  | String c s' =>
      match hex_digit c with
      | Some d => int16_digits (16 * acc + d) s'
      | None => None
      end
  end.

(** [int(hexbyte_string, 16)] on a run of hexadecimal digits.  Python also
    reads a sign, a [0x] prefix, underscores and surrounding blanks; the
    two-digit groups [html_to_888] passes hold none of these, and any other
    string is a ValueError here. *)
Definition hex_byte_to_int (hexbyte_string : string) : outcome Z :=
  match hexbyte_string with
  | EmptyString => Raise ValueError
  | _ =>
      match int16_digits 0 hexbyte_string with
      | Some z => Ret z
      | None => Raise ValueError
      end
  end.

(** [(?P<red>[0-9a-fA-F]{2})(?P<green>[0-9a-fA-F]{2})(?P<blue>[0-9a-fA-F]{2})] *)
Definition pat_888 : regex :=
  Cat (Group "red" (Times 2 (Class hex_class)))
      (Cat (Group "green" (Times 2 (Class hex_class)))
           (Group "blue" (Times 2 (Class hex_class)))).

Definition html_to_888 (html_str : string) : outcome (Z * Z * Z) :=
  let m := re_match pat_888 html_str in
  r ← m_group m "red";
  r ← hex_byte_to_int r;
  g ← m_group m "green";
  g ← hex_byte_to_int g;
  b ← m_group m "blue";
  b ← hex_byte_to_int b;
  Ret (r, g, b).

(** [[#]?[0-9a-fA-F]{6}] *)
Definition pat_validate : regex :=
  Cat (Opt (Class hash_class)) (Times 6 (Class hex_class)).

Definition validate_html_color (color : value) : outcome bool :=
  s ← str_of color;
  let m := re_search pat_validate s in
  g ← m_group0 m;
  Ret (String.eqb g s).

(** [[#]?([0-9a-fA-F]{6})] *)
Definition pat_sanitize : regex :=
  Cat (Opt (Class hash_class)) (Group "1" (Times 6 (Class hex_class))).

Definition sanitize_html_color (code : string) : outcome string :=
  let m := re_match pat_sanitize code in
  m_group m "1".

(** ** Terminal geometry *)

Definition get_terminal_pixel_size (columns lines h_pix v_pix : Z)
    (h_offset v_offset : Z) : Z * Z :=
  let height := lines * v_pix + v_offset in
  let width := columns * h_pix + h_offset in
  (width, height).

(** ** Layout *)

(** The body of [get_text_anchor_pos] is its docstring and a bare [return]:
    the call yields None for every argument.  The function takes no margin. *)
Definition get_text_anchor_pos (pos : string) (text_w text_h : Z)
    (image_w image_h : Z) : value :=
  VNone.

(** [check_margin] is a bare [return] as well. *)
Definition check_margin (args : gmap string value) : value :=
  VNone.

(** [fit_check] is a bare [return]; [margin] is what [check_margin] gave. *)
Definition fit_check (render_text_width render_text_height : Z)
    (margin : value) (w h : Z) : value :=
  VNone.

(** ** Checks on the parsed arguments *)

(** [for p in ps: if p in args: ret = p; break]. *)
Fixpoint first_contained (args : gmap string value) (ps : list string)
    (ret : string) : string :=
  match ps with
  | [] => ret
  | p :: ps' => if contains args p then p else first_contained args ps' ret
  end.

Definition check_position (args : gmap string value) : string :=
  let ret := DEFAULT_POS in
  let position_args := POSITION_CODES in
  first_contained args position_args ret.

Definition fg_color_args : list string :=
  ["f"; "fR"; "fG"; "fB"; "fW"; "fK"; "fC"; "fM"; "fY"; "fg"].

Definition fg_color_in_hex : gmap string string :=
  list_to_map
    [("fR", "FF0000"); ("fG", "00FF00"); ("ff", "0000FF"); ("fW", "FFFFFF");
     ("fK", "000000"); ("fC", "00FFFF"); ("fM", "FF00ff"); ("fY", "FFFF00");
     ("fg", "A9A9A9")].

Definition bg_color_args : list string :=
  ["bR"; "bG"; "bB"; "bW"; "bK"; "bC"; "bM"; "bY"; "bg"].

Definition bg_color_in_hex : gmap string string :=
  list_to_map
    [("bR", "FF0000"); ("bG", "00FF00"); ("bB", "0000FF"); ("bW", "FFFFFF");
     ("bK", "000000"); ("bC", "00FFFF"); ("bM", "FF00ff"); ("bY", "FFFF00");
     ("bg", "A9A9A9")].

(** The body of both colour loops:
    [if getattr(args, color) == True: ret = color_in_hex[color]]. *)
Definition pick_color (args : gmap string value)
    (color_in_hex : gmap string string) (ret color : string) : outcome string :=
  v ← getattr args color;
  if eq_True v then dict_get color_in_hex color else Ret ret.

Definition check_fg_color (args : gmap string value) : outcome string :=
  let ret := DEFAULT_FGC in
  let skip_iter := false in
  f ← getattr args "f";
  ret ← (if is_not_None f then
           b ← getattr args "b";
           valid ← validate_html_color b;
           if valid : bool then str_of b else Exit EXIT_INVALID_FG
         else Ret ret);
  ret ← (if negb skip_iter then
           for_each (pick_color args fg_color_in_hex) fg_color_args ret
         else Ret ret);
  sanitize_html_color ret.

Definition check_bg_color (args : gmap string value) : outcome string :=
  let ret := DEFAULT_BGC in
  let skip_iter := false in
  b ← getattr args "b";
  ret ← (if is_not_None b then
           valid ← validate_html_color b;
           if valid : bool then str_of b else Exit EXIT_INVALID_BG
         else Ret ret);
  ret ← (if negb skip_iter then
           for_each (pick_color args bg_color_in_hex) bg_color_args ret
         else Ret ret);
  sanitize_html_color ret.

(** [a > 255] and [a < 0] on an integer; a bool compares as 0 or 1 and is
    returned as it is, anything else cannot be ordered against an int. *)
Definition check_alpha (args : gmap string value) : outcome value :=
  a ← getattr args "alpha";
  match a with
  | VInt z =>
      if 255 <? z then Ret (VInt 255)
      else if z <? 0 then Ret (VInt 0)
      else Ret (VInt z)
  | VBool b => Ret (VBool b)
  | _ => Raise TypeError
  end.

Definition check_size (args : gmap string value) : outcome value :=
  let ret := VInt DEFAULT_SIZE in
  s ← getattr args "s";
  Ret (if truthy s then s else ret).

(** ** The parser and the run *)

(** The namespace [config_parser().parse_args()] returns when only the text
    is given: every option is present, a [store_true] flag as False, an
    option without default as None. *)
Definition default_args (text : list string) : gmap string value :=
  list_to_map
    [("text", VList text); ("s", VNone); ("font", VNone);
     ("verbose", VInt 0); ("out_path", VNone); ("alpha", VInt 255);
     ("pT", VBool false); ("pTL", VBool false); ("pTR", VBool false);
     ("pB", VBool false); ("pBL", VBool false); ("pBR", VBool false);
     ("pC", VBool false); ("pL", VBool false); ("pR", VBool false);
     ("margin", VInt 25);
     ("fR", VBool false); ("fG", VBool false); ("fB", VBool false);
     ("fW", VBool false); ("fK", VBool false); ("fC", VBool false);
     ("fM", VBool false); ("fY", VBool false); ("fg", VBool false);
     ("f", VNone);
     ("bR", VBool false); ("bG", VBool false); ("bB", VBool false);
     ("bW", VBool false); ("bK", VBool false); ("bC", VBool false);
     ("bM", VBool false); ("bY", VBool false); ("bg", VBool false);
     ("b", VNone)].

(** A [store_true] flag given on the command line. *)
Definition with_flag (name : string) (args : gmap string value)
    : gmap string value :=
  <[name := VBool true]> args.

(** An option given with a string argument, such as [--f NNNNNN]. *)
Definition with_str (name arg : string) (args : gmap string value)
    : gmap string value :=
  <[name := VStr arg]> args.

(** [-s SIZE], which argparse converts with [int]. *)
Definition with_size (n : Z) (args : gmap string value) : gmap string value :=
  <["s" := VInt n]> args.

(** [main] from the parsed [args] on.  [c] and [l] are what
    [get_terminal_size()] reports and [text_size] what the imaging library
    measures for the text; logging, the output path and the font check do
    not change the control flow and are left out. *)
Definition main (args : gmap string value) (c l : Z) (text_size : Z * Z)
    : outcome unit :=
  let '(w, h) :=
    get_terminal_pixel_size c l RETINA_HCELL_PIXELS RETINA_VCELL_PIXELS
      RETINA_H_OFFSET RETINA_V_OFFSET in
  let position := check_position args in
  fg_color ← check_fg_color args;
  bg_color ← check_bg_color args;
  size ← check_size args;
  alpha ← check_alpha args;
  let margin := check_margin args in
  blanking_color ← html_to_888 bg_color;
  let '(render_text_width, render_text_height) := text_size in
  if negb (truthy (fit_check render_text_width render_text_height margin w h))
  then Exit EXIT_DOES_NOT_FIT
  else Ret tt.

(** ** The output path *)

(** [check_output_file]: [tmp_name] is the name the temporary file was
    given, which the function asks for only when no path was passed. *)
Definition check_output_file (args : gmap string value) (tmp_name : string)
    : outcome value :=
  out_path ← getattr args "out_path";
  if negb (truthy out_path) then Ret (VStr (tmp_name +:+ ".png"))
  else Ret out_path.

(** ** The colorizing log handler *)

(** The levels of the [logging] module. *)
Definition DEBUG : Z := 10.
Definition INFO : Z := 20.
Definition WARNING : Z := 30.
Definition ERROR : Z := 40.
Definition CRITICAL : Z := 50.

Definition color_map : gmap string Z :=
  list_to_map
    [("black", 0); ("red", 1); ("green", 2); ("yellow", 3); ("blue", 4);
     ("magenta", 5); ("cyan", 6); ("white", 7)].

(** Level to (background, foreground, intense); a background may be None. *)
Definition level_map : gmap Z (option string * string * bool) :=
  list_to_map
    [(DEBUG, (None, "blue", false));
     (INFO, (None, "black", false));
     (WARNING, (None, "yellow", false));
     (ERROR, (None, "red", true));
     (CRITICAL, (Some "red", "white", true))].

Definition escape : ascii := ascii_of_nat 27.
Definition newline : ascii := ascii_of_nat 10.

Definition csi : string := String escape "[".
Definition reset : string := String escape "[0m".

(** [str(n)] of an integer. *)
Definition str_int (n : Z) : string := NilZero.string_of_int (Z.to_int n).

(** [sep.join(parts)]. *)
Fixpoint join (sep : string) (parts : list string) : string :=
  match parts with
  | [] => ""
  | [p] => p
  | p :: ps => p +:+ sep +:+ join sep ps
  end.

(** [ColorizingStreamHandler.colorize], on the level of the record. *)
Definition colorize (message : string) (levelno : Z) : string :=
  match level_map !! levelno with
  | Some (bg, fg, bold) =>
      let params : list string := [] in
      let params :=
        match bg ≫= (color_map !!.) with
        | Some n => (params ++ [str_int (n + 40)])%list
        | None => params
        end in
      let params :=
        match color_map !! fg with
        | Some n => (params ++ [str_int (n + 30)])%list
        | None => params
        end in
      let params := if bold : bool then (params ++ ["1"])%list else params in
      match params with
      | [] => message
      | _ => csi +:+ join ";" params +:+ "m" +:+ message +:+ reset
      end
  | None => message
  end.

(** [message.split('\n', 1)]: cut at the first newline, if there is one. *)
Fixpoint split_first_line (message : string) : list string :=
  match message with
  | EmptyString => [""]
  | String c rest =>
      if Ascii.eqb c newline then [""; rest]
      else
        match split_first_line rest with
        | p :: ps => String c p :: ps
        | [] => [String c ""]
        end
  end.

(** The stream of the handler: whether it has an [isatty] method, with what
    the method would answer, and what was written to it. *)
Record stream : Type := Stream {
  isatty : option bool;
  written : string
}.

(** The property [is_tty] hands back the method itself, which it never
    calls; as a condition it holds as soon as the method exists. *)
Definition is_tty (st : stream) : bool :=
  match isatty st with
  | Some _ => true
  | None => false
  end.

(** [ColorizingStreamHandler.format]; [base] is the line the formatter of
    [logging.StreamHandler] made of the record. *)
Definition format (st : stream) (base : string) (levelno : Z) : string :=
  let message := base in
  if is_tty st then
    match split_first_line message with
    | p :: ps => join (String newline "") (colorize p levelno :: ps)
    | [] => message
    end
  else message.

(** [stream.write(text)]. *)
Definition write (st : stream) (text : string) : stream :=
  Stream (isatty st) (written st +:+ text).

(** [ColorizingStreamHandler.emit] when nothing raises: both branches write
    the message, then the terminator of the handler. *)
Definition emit (st : stream) (base : string) (levelno : Z) : stream :=
  let message := format st base levelno in
  let st := if negb (is_tty st) then write st message else write st message in
  write st (String newline "").

(** ** The base-16 reading of a colour, as the specification words it *)

Fixpoint index_in (c : ascii) (digits : string) : option Z :=
  match digits with
  | EmptyString => None
  | String d ds => if Ascii.eqb c d then Some 0 else Z.succ <$> index_in c ds
  end.

(** The value of a digit is its place among the sixteen digits, written in
    either case. *)
Definition base16_digit (c : ascii) : Z :=
  match index_in c "0123456789abcdef", index_in c "0123456789ABCDEF" with
  | Some d, _ => d
  | None, Some d => d
  | None, None => 0
  end.

(** Positional value of a run of digits. *)
Fixpoint base16 (s : string) : Z :=
  match s with
  | EmptyString => 0
  | String c s' => base16_digit c * 16 ^ Z.of_nat (String.length s') + base16 s'
  end.

(** Split into three groups of two digits, each read in base 16. *)
Definition rgb_by_groups (s : string) : Z * Z * Z :=
  (base16 (substring 0 2 s), base16 (substring 2 2 s), base16 (substring 4 2 s)).

(** Every character of [s] is a hexadecimal digit. *)
Fixpoint all_hex (s : string) : bool :=
  match s with
  | EmptyString => true
  | String c s' => hex_class c && all_hex s'
  end.

(** No character of [s] is a hexadecimal digit. *)
Fixpoint no_hex (s : string) : bool :=
  match s with
  | EmptyString => true
  | String c s' => negb (hex_class c) && no_hex s'
  end.

(** Upper-casing, to compare colours whatever the case of their digits. *)
Definition upper (c : ascii) : ascii :=
  if in_range "a" "z" c then ascii_of_N (N_of_ascii c - 32) else c.

Fixpoint upper_str (s : string) : string :=
  match s with
  | EmptyString => EmptyString
  | String c s' => String (upper c) (upper_str s')
  end.

(** The call came back with a value rather than raising or exiting. *)
Definition returns {A : Type} (o : outcome A) : bool :=
  match o with
  | Ret _ => true
  | _ => false
  end.

(** The documented table of named colours: the letter that follows [f] or
    [b] in the flag, and the constant. *)
Definition preset_table : list (string * string) :=
  [("R", "FF0000"); ("G", "00FF00"); ("B", "0000FF"); ("W", "FFFFFF");
   ("K", "000000"); ("C", "00FFFF"); ("M", "FF00FF"); ("Y", "FFFF00");
   ("g", "A9A9A9")].

(** [o] is the colour [hex], whatever the case of its digits, and its
    conversion is the triple of [hex]. *)
Definition resolves_to (o : outcome string) (hex : string) : bool :=
  match o with
  | Ret c =>
      String.eqb (upper_str c) hex &&
      match html_to_888 c with
      | Ret (r, g, b) =>
          let '(r', g', b') := rgb_by_groups hex in
          (r =? r') && (g =? g') && (b =? b')
      | _ => false
      end
  | _ => false
  end.

(** The flag of a preset on one side ([side] is [f] or [b]) resolves to the
    constant of the table. *)
Definition preset_ok (check : gmap string value -> outcome string)
    (side : string) (args : gmap string value) (row : string * string) : bool :=
  resolves_to (check (with_flag (side +:+ row.1) args)) row.2.

(** ** Shapes of colour strings *)

(** [s] begins with six hexadecimal digits. *)
Definition hex_run6 (s : string) : bool :=
  (6 <=? String.length s)%nat && all_hex (take 6 s).

(** Six hexadecimal digits in a row occur somewhere in [s]. *)
Fixpoint has_hex_run (s : string) : bool :=
  hex_run6 s ||
  match s with
  | String _ s' => has_hex_run s'
  | EmptyString => false
  end.

(** [s] without the [#] it may begin with. *)
Definition strip_hash (s : string) : string :=
  match s with
  | String c s' => if hash_class c then s' else s
  | EmptyString => s
  end.

(** [s] is six hexadecimal digits and nothing else, but for a [#] in
    front. *)
Definition well_formed (s : string) : bool :=
  (String.length (strip_hash s) =? 6)%nat && all_hex (strip_hash s).

(** [s] without its first [n] characters. *)
Fixpoint drop (n : nat) (s : string) : string :=
  match n, s with
  | S n', String _ s' => drop n' s'
  | _, _ => s
  end.

(** [s] begins with [#]. *)
Definition has_hash (s : string) : bool :=
  match s with
  | String c _ => hash_class c
  | EmptyString => false
  end.

(** The digit of a value below sixteen, in upper case. *)
Definition digit_char (d : Z) : ascii :=
  match String.get (Z.to_nat d) "0123456789ABCDEF" with
  | Some c => c
  | None => "0"%char
  end.

(** [s] holds no newline. *)
Fixpoint one_line (s : string) : bool :=
  match s with
  | EmptyString => true
  | String c s' => negb (Ascii.eqb c newline) && one_line s'
  end.

(** * Properties *)

(** ** Characters *)

Lemma hex_class_not_hash (c : ascii) :
  hex_class c = true -> hash_class c = false.
Proof.
  destruct c as [[] [] [] [] [] [] [] []]; vm_compute; congruence.
Qed.

Lemma hex_digit_base16 (c : ascii) :
  hex_class c = true -> hex_digit c = Some (base16_digit c).
Proof.
  destruct c as [[] [] [] [] [] [] [] []]; vm_compute; congruence.
Qed.

Lemma all_hex_cons (c : ascii) (s : string) :
  all_hex (String c s) = true -> hex_class c = true /\ all_hex s = true.
Proof. cbn [all_hex]. intros H. apply andb_prop in H. exact H. Qed.

(** ** The matcher, one construct at a time *)

Section Matcher.
Context {A : Type}.
Implicit Types (r : regex) (s : string) (caps : list (string * string)).
Implicit Types (k : string -> list (string * string) -> option A).

Lemma rmatch_class p s caps k :
  rmatch (Class p) s caps k =
  match s with
  | String c s' => if p c then k s' caps else None
  | EmptyString => None
  end.
Proof. reflexivity. Qed.

Lemma rmatch_opt r s caps k :
  rmatch (Opt r) s caps k =
  match rmatch r s caps k with
  | Some a => Some a
  | None => k s caps
  end.
Proof. reflexivity. Qed.

Lemma rmatch_cat r1 r2 s caps k :
  rmatch (Cat r1 r2) s caps k =
  rmatch r1 s caps (fun s' caps' => rmatch r2 s' caps' k).
Proof. reflexivity. Qed.

Lemma rmatch_times_S n r s caps k :
  rmatch (Times (S n) r) s caps k =
  rmatch r s caps (fun s' caps' => rmatch (Times n r) s' caps' k).
Proof. reflexivity. Qed.

(** A class repeated [n] times needs [n] characters. *)
Lemma rmatch_times_short p n : forall s caps k,
  (String.length s < n)%nat ->
  rmatch (Times n (Class p)) s caps k = None.
Proof.
  induction n as [|n IH]; intros s caps k Hlen; [lia |].
  rewrite rmatch_times_S, rmatch_class.
  destruct s as [|c s']; [reflexivity |].
  destruct (p c); [| reflexivity].
  apply IH. cbn in Hlen. lia.
Qed.

(** A repeated class fails at once on a character outside the class. *)
Lemma rmatch_times_head p n c s caps k :
  p c = false ->
  rmatch (Times (S n) (Class p)) (String c s) caps k = None.
Proof.
  intros Hc. rewrite rmatch_times_S, rmatch_class, Hc. reflexivity.
Qed.
End Matcher.

(** ** Strings in which the search finds nothing *)

Lemma re_match_validate_short (s : string) :
  (String.length s < 6)%nat -> re_match pat_validate s = None.
Proof.
  intros Hlen. unfold re_match, pat_validate.
  rewrite rmatch_cat, rmatch_opt, rmatch_class.
  rewrite (rmatch_times_short hex_class 6 s) by exact Hlen.
  destruct s as [|c s']; [reflexivity |].
  destruct (hash_class c); [| reflexivity].
  rewrite rmatch_times_short; [reflexivity |]. cbn in Hlen. lia.
Qed.

Lemma re_search_validate_short (s : string) :
  (String.length s < 6)%nat -> re_search pat_validate s = None.
Proof.
  induction s as [|c s' IH]; intros Hlen.
  - reflexivity.
  - cbn [re_search]. rewrite re_match_validate_short by exact Hlen.
    apply IH. cbn in Hlen. lia.
Qed.

Lemma re_match_validate_no_hex (s : string) :
  no_hex s = true -> re_match pat_validate s = None.
Proof.
  intros Hno. unfold re_match, pat_validate.
  rewrite rmatch_cat, rmatch_opt, rmatch_class.
  destruct s as [|c [|c' s']]; [reflexivity | |].
  - cbn in Hno. destruct (hex_class c) eqn:Hc; [discriminate |].
    rewrite rmatch_times_head by exact Hc.
    destruct (hash_class c); reflexivity.
  - cbn in Hno.
    destruct (hex_class c) eqn:Hc; [discriminate |].
    destruct (hex_class c') eqn:Hc'; [discriminate |].
    rewrite !rmatch_times_head by assumption.
    destruct (hash_class c); reflexivity.
Qed.

Lemma re_search_validate_no_hex (s : string) :
  no_hex s = true -> re_search pat_validate s = None.
Proof.
  induction s as [|c s' IH]; intros Hno.
  - reflexivity.
  - cbn [re_search]. rewrite re_match_validate_no_hex by exact Hno.
    apply IH. cbn in Hno. apply andb_prop in Hno. apply Hno.
Qed.

(** A string too short to hold six digits, such as 12345, makes
    [validate_html_color] raise rather than answer False. *)
Lemma validate_short_raises (s : string) :
  (String.length s < 6)%nat ->
  validate_html_color (VStr s) = Raise AttributeError.
Proof.
  intros Hlen. unfold validate_html_color. cbn.
  rewrite re_search_validate_short by exact Hlen. reflexivity.
Qed.

(** So does a string without any hexadecimal digit, such as GGHHII. *)
Lemma validate_no_hex_raises (s : string) :
  no_hex s = true ->
  validate_html_color (VStr s) = Raise AttributeError.
Proof.
  intros Hno. unfold validate_html_color. cbn.
  rewrite re_search_validate_no_hex by exact Hno. reflexivity.
Qed.

(** ** Sanitizing and converting a colour *)

(** Six digits, one character at a time. *)
Section SixDigits.
Variables c1 c2 c3 c4 c5 c6 : ascii.
Hypothesis H1 : hex_class c1 = true.
Hypothesis H2 : hex_class c2 = true.
Hypothesis H3 : hex_class c3 = true.
Hypothesis H4 : hex_class c4 = true.
Hypothesis H5 : hex_class c5 = true.
Hypothesis H6 : hex_class c6 = true.

Local Abbreviation s :=
  (String c1 (String c2 (String c3 (String c4 (String c5 (String c6 "")))))).

Lemma sanitize_chars : sanitize_html_color s = Ret s.
Proof.
  unfold sanitize_html_color, re_match, pat_sanitize. cbn.
  rewrite (hex_class_not_hash c1 H1), H1, H2, H3, H4, H5, H6.
  reflexivity.
Qed.

Lemma sanitize_hash_chars : sanitize_html_color (String "#" s) = Ret s.
Proof.
  unfold sanitize_html_color, re_match, pat_sanitize. cbn.
  rewrite H1, H2, H3, H4, H5, H6.
  reflexivity.
Qed.

Lemma validate_chars : validate_html_color (VStr s) = Ret true.
Proof.
  unfold validate_html_color, pat_validate. cbn. unfold re_match. cbn.
  rewrite (hex_class_not_hash c1 H1), H1, H2, H3, H4, H5, H6. cbn.
  rewrite !Ascii.eqb_refl. reflexivity.
Qed.

Lemma validate_hash_chars :
  validate_html_color (VStr (String "#" s)) = Ret true.
Proof.
  unfold validate_html_color, pat_validate. cbn. unfold re_match. cbn.
  rewrite H1, H2, H3, H4, H5, H6. cbn.
  rewrite !Ascii.eqb_refl. reflexivity.
Qed.

Lemma validate_chars_then (c : ascii) (t : string) :
  validate_html_color (VStr (s +:+ String c t)) = Ret false.
Proof.
  unfold validate_html_color, pat_validate. cbv [String.append]. cbn.
  unfold re_match. cbn.
  rewrite (hex_class_not_hash c1 H1), H1, H2, H3, H4, H5, H6. cbn.
  replace (S (S (S (S (S (S (String.length t)))))) - String.length t)%nat
    with 6%nat by lia.
  cbn [take]. f_equal. apply String.eqb_neq. congruence.
Qed.

Lemma html_to_888_chars : html_to_888 s = Ret (rgb_by_groups s).
Proof.
  unfold html_to_888, re_match, pat_888. cbn.
  rewrite H1, H2, H3, H4, H5, H6. cbn.
  unfold hex_byte_to_int. cbn.
  rewrite !hex_digit_base16 by assumption. cbn.
  unfold rgb_by_groups. cbn.
  change (16 ^ Z.of_nat 1) with 16. change (16 ^ Z.of_nat 0) with 1.
  f_equal. f_equal; [f_equal |]; lia.
Qed.
End SixDigits.

(** Open a string of length six with hexadecimal digits only into its six
    characters, each with its class. *)
Ltac six_digits s Hlen Hhex :=
  destruct s as [|? [|? [|? [|? [|? [|? [|? ?]]]]]]]; try discriminate Hlen;
  repeat (let H := fresh "Hc" in apply all_hex_cons in Hhex as [H Hhex]);
  clear Hlen Hhex.

Section SixDigitString.
Variable s : string.
Hypothesis Hlen : String.length s = 6%nat.
Hypothesis Hhex : all_hex s = true.

Lemma sanitize_six : sanitize_html_color s = Ret s.
Proof. six_digits s Hlen Hhex. apply sanitize_chars; assumption. Qed.

Lemma sanitize_hash_six : sanitize_html_color ("#" +:+ s) = Ret s.
Proof. six_digits s Hlen Hhex. apply sanitize_hash_chars; assumption. Qed.

Lemma validate_six : validate_html_color (VStr s) = Ret true.
Proof. six_digits s Hlen Hhex. apply validate_chars; assumption. Qed.

Lemma validate_hash_six : validate_html_color (VStr ("#" +:+ s)) = Ret true.
Proof. six_digits s Hlen Hhex. apply validate_hash_chars; assumption. Qed.

(** A colour followed by anything else is refused: the search finds the six
    digits, which are not the whole string. *)
Lemma validate_trailing_garbage (c : ascii) (t : string) :
  validate_html_color (VStr (s +:+ String c t)) = Ret false.
Proof. six_digits s Hlen Hhex. apply validate_chars_then; assumption. Qed.

Lemma html_to_888_six : html_to_888 s = Ret (rgb_by_groups s).
Proof. six_digits s Hlen Hhex. apply html_to_888_chars; assumption. Qed.
End SixDigitString.

(** C9: for every string of exactly six hexadecimal digits, sanitizing it
    with a leading [#] and without one give the same bare six digits, and
    converting the sanitized colour of either form gives the same triple:
    the three groups of two digits, each read in base 16. *)
Theorem sanitize_hash_agnostic (s : string) :
  String.length s = 6%nat ->
  all_hex s = true ->
  sanitize_html_color ("#" +:+ s) = Ret s /\
  sanitize_html_color s = Ret s /\
  (sanitize_html_color ("#" +:+ s) ≫= html_to_888) = Ret (rgb_by_groups s) /\
  (sanitize_html_color s ≫= html_to_888) = Ret (rgb_by_groups s).
Proof.
  intros Hlen Hhex.
  rewrite (sanitize_hash_six s Hlen Hhex), (sanitize_six s Hlen Hhex).
  repeat split; apply html_to_888_six; assumption.
Qed.

Lemma sanitize_hash_agnostic_witness :
  String.length "A9a9F0" = 6%nat /\
  all_hex "A9a9F0" = true /\
  sanitize_html_color "#A9a9F0" = Ret "A9a9F0" /\
  sanitize_html_color "A9a9F0" = Ret "A9a9F0" /\
  (sanitize_html_color "#A9a9F0" ≫= html_to_888) = Ret (rgb_by_groups "A9a9F0") /\
  (sanitize_html_color "A9a9F0" ≫= html_to_888) = Ret (rgb_by_groups "A9a9F0").
Proof.
  split; [reflexivity |]. split; [reflexivity |].
  apply (sanitize_hash_agnostic "A9a9F0"); reflexivity.
Defined.

(** [html_to_888] is anchored at the first character and knows no [#]: it is
    the sanitized colour that [main] converts. *)
Lemma html_to_888_hashed_raises :
  html_to_888 "#FF0000" = Raise AttributeError.
Proof. reflexivity. Qed.

Example rgb_by_groups_red : rgb_by_groups "FF0000" = (255, 0, 0).
Proof. reflexivity. Qed.

Example rgb_by_groups_gray : rgb_by_groups "A9a9F0" = (169, 169, 240).
Proof. reflexivity. Qed.

(** ** Terminal geometry *)

(** C8: the canvas size is the linear function
    width = columns * h_pix + h_offset, height = lines * v_pix + v_offset of
    its arguments, in integer arithmetic; 80 columns and 24 rows with the
    cell profile (14, 28, 20, 14) give 1140 by 686. *)
Theorem get_terminal_pixel_size_linear :
  (forall columns lines h_pix v_pix h_offset v_offset : Z,
     get_terminal_pixel_size columns lines h_pix v_pix h_offset v_offset =
     (columns * h_pix + h_offset, lines * v_pix + v_offset)) /\
  get_terminal_pixel_size 80 24 RETINA_HCELL_PIXELS RETINA_VCELL_PIXELS
    RETINA_H_OFFSET RETINA_V_OFFSET = (1140, 686) /\
  (RETINA_HCELL_PIXELS, RETINA_VCELL_PIXELS, RETINA_H_OFFSET, RETINA_V_OFFSET)
    = (14, 28, 20, 14).
Proof. repeat split. Qed.

(** ** Point size *)

(** C10: when the size argument is absent (None in the namespace) or 0,
    [check_size] returns the default 45; a non-zero size is returned
    unchanged. *)
Theorem check_size_zero_or_absent (args : gmap string value) (v : value) :
  args !! "s" = Some v ->
  (v = VNone \/ v = VInt 0 -> check_size args = Ret (VInt 45)) /\
  (forall n : Z, v = VInt n -> n <> 0 -> check_size args = Ret (VInt n)).
Proof.
  intros Hs. unfold check_size, getattr. rewrite Hs. cbn. split.
  - intros [-> | ->]; reflexivity.
  - intros n -> Hn. cbn.
    destruct (Z.eqb_spec n 0) as [E | _]; [contradiction | reflexivity].
Qed.

Lemma check_size_zero_or_absent_witness :
  with_size 12 (default_args ["HELLO"]) !! "s" = Some (VInt 12) /\
  check_size (with_size 12 (default_args ["HELLO"])) = Ret (VInt 12).
Proof.
  split; [reflexivity |].
  apply (check_size_zero_or_absent
           (with_size 12 (default_args ["HELLO"])) (VInt 12) eq_refl);
    [reflexivity | lia].
Defined.

Example check_size_absent (text : list string) :
  check_size (default_args text) = Ret (VInt 45).
Proof. reflexivity. Qed.

Example check_size_zero (text : list string) :
  check_size (with_size 0 (default_args text)) = Ret (VInt 45).
Proof. reflexivity. Qed.

Example check_size_negative (text : list string) :
  check_size (with_size (-3) (default_args text)) = Ret (VInt (-3)).
Proof. reflexivity. Qed.

(** ** Layout *)

Lemma main_never_returns (args : gmap string value) (c l : Z)
    (text_size : Z * Z) :
  returns (main args c l text_size) = false.
Proof.
  unfold main. destruct text_size as [tw th]. cbn.
  destruct (check_fg_color args); cbn; try reflexivity.
  destruct (check_bg_color args) as [bg | |]; cbn; try reflexivity.
  destruct (check_size args); cbn; try reflexivity.
  destruct (check_alpha args); cbn; try reflexivity.
  destruct (html_to_888 bg); cbn; reflexivity.
Qed.

(** C1, as the code has it: [fit_check] yields None for every argument, so
    it reports nothing for the text box 760 by 20 and nothing for the one of
    700 by 20 on a canvas of 800 by 400; [main] takes None for
    does-not-fit, never comes back, and with valid colours leaves with
    [EXIT_DOES_NOT_FIT] although a text of 100 by 20 fits in 1140 by 686. *)
Theorem fit_check_reports_nothing :
  (forall (tw th : Z) (margin : value) (w h : Z),
     fit_check tw th margin w h = VNone) /\
  fit_check 760 20 (VInt 25) 800 400 = fit_check 700 20 (VInt 25) 800 400 /\
  (forall (args : gmap string value) (c l : Z) (text_size : Z * Z),
     returns (main args c l text_size) = false) /\
  main (with_flag "fK" (with_flag "bW" (default_args ["HELLO"]))) 80 24 (100, 20)
    = Exit EXIT_DOES_NOT_FIT.
Proof.
  split; [reflexivity |]. split; [reflexivity |].
  split; [exact main_never_returns | reflexivity].
Qed.

(** C2, as the code has it: [get_text_anchor_pos] takes no margin and
    yields None for every anchor, text box and canvas. *)
Theorem get_text_anchor_pos_returns_none :
  (forall (pos : string) (text_w text_h image_w image_h : Z),
     get_text_anchor_pos pos text_w text_h image_w image_h = VNone) /\
  get_text_anchor_pos "pTL" 100 20 800 400 = VNone.
Proof. split; reflexivity. Qed.

(** ** Position *)

Lemma check_position_first_code (args : gmap string value) :
  contains args "pT" = true -> check_position args = "pT".
Proof.
  intros H. unfold check_position, POSITION_CODES. cbn [first_contained].
  rewrite H. reflexivity.
Qed.

(** A flag keeps every attribute of the namespace in place. *)
Lemma with_flag_contains (name p : string) (args : gmap string value) :
  contains args p = true -> contains (with_flag name args) p = true.
Proof.
  unfold contains, with_flag. rewrite !bool_decide_eq_true.
  intros [v Hv]. destruct (decide (name = p)) as [-> | Hne].
  - rewrite lookup_insert_eq. eauto.
  - rewrite lookup_insert_ne by exact Hne. eauto.
Qed.

Lemma default_args_contains_pT (text : list string) :
  contains (default_args text) "pT" = true.
Proof. reflexivity. Qed.

(** Whatever flag is given, the position is the first code. *)
Lemma check_position_any_flag (text : list string) (name : string) :
  check_position (with_flag name (default_args text)) = "pT".
Proof.
  apply check_position_first_code, with_flag_contains,
    default_args_contains_pT.
Qed.

(** C7, as the code has it: the membership test [p in args] holds for the
    first code whatever the flags, so the position is [pT] (top center)
    when no flag is given and when any of the nine flags is given; the
    default [tR] is not one of the nine codes. *)
Theorem check_position_always_top_center :
  (forall text : list string, check_position (default_args text) = "pT") /\
  (forall (text : list string) (flag : string),
     check_position (with_flag flag (default_args text)) = "pT") /\
  check_position (with_flag "pBR" (default_args ["HELLO"])) = "pT" /\
  existsb (String.eqb DEFAULT_POS) POSITION_CODES = false.
Proof.
  split; [reflexivity |]. split; [exact check_position_any_flag |].
  split; reflexivity.
Qed.

(** ** Colours *)

(** The nine background presets give the constants of the table. *)
Lemma bg_presets_match_table (text : list string) :
  forallb (preset_ok check_bg_color "b" (default_args text)) preset_table = true.
Proof. vm_compute. reflexivity. Qed.

(** So do the foreground presets other than blue. *)
Lemma fg_presets_match_table_but_blue (text : list string) :
  forallb (preset_ok check_fg_color "f" (default_args text))
    (filter (fun row => negb (String.eqb row.1 "B")) preset_table) = true.
Proof. vm_compute. reflexivity. Qed.

Example bg_red_rgb :
  (check_bg_color (with_flag "bR" (default_args ["HELLO"])) ≫= html_to_888)
  = Ret (255, 0, 0).
Proof. reflexivity. Qed.

Example fg_magenta_mixed_case :
  check_fg_color (with_flag "fM" (default_args ["HELLO"])) = Ret "FF00ff".
Proof. reflexivity. Qed.

(** C4, as the code has it: the foreground table has the key [ff] where the
    loop looks up [fB], so the blue foreground flag raises KeyError and
    resolves to no colour. *)
Theorem check_fg_color_blue_key_error :
  (forall text : list string,
     check_fg_color (with_flag "fB" (default_args text)) = Raise KeyError) /\
  fg_color_in_hex !! "fB" = None /\
  fg_color_in_hex !! "ff" = Some "0000FF" /\
  preset_ok check_fg_color "f" (default_args ["HELLO"]) ("B", "0000FF") = false.
Proof. repeat split. Qed.

(** Both checks on a namespace with the option [b] given and, for the
    foreground, [f] given: the steps after the validation. *)
Ltac after_validation :=
  cbn [mbind outcome_bind str_of negb];
  match goal with
  | |- context [for_each ?body ?xs ?acc] =>
      replace (for_each body xs acc) with (Ret acc) by reflexivity
  end;
  cbn [mbind outcome_bind].

(** The background side resolves an explicit colour to itself. *)
Lemma check_bg_color_explicit (text : list string) (b : string) :
  String.length b = 6%nat ->
  all_hex b = true ->
  check_bg_color (with_str "b" b (default_args text)) = Ret b.
Proof.
  intros Hlen Hhex. unfold check_bg_color.
  replace (getattr (with_str "b" b (default_args text)) "b")
    with (Ret (VStr b)) by reflexivity.
  cbn [mbind outcome_bind is_not_None].
  rewrite validate_six by assumption.
  after_validation. apply sanitize_six; assumption.
Qed.

(** The foreground side resolves any explicit colour [f], valid or not, to
    the background colour [b]. *)
Lemma check_fg_color_explicit (text : list string) (f b : string) :
  String.length b = 6%nat ->
  all_hex b = true ->
  check_fg_color (with_str "f" f (with_str "b" b (default_args text))) = Ret b.
Proof.
  intros Hlen Hhex. unfold check_fg_color.
  replace (getattr (with_str "f" f (with_str "b" b (default_args text))) "f")
    with (Ret (VStr f)) by reflexivity.
  replace (getattr (with_str "f" f (with_str "b" b (default_args text))) "b")
    with (Ret (VStr b)) by reflexivity.
  cbn [mbind outcome_bind is_not_None].
  rewrite validate_six by assumption.
  after_validation. apply sanitize_six; assumption.
Qed.

(** With no [--b] the foreground side passes None to the search. *)
Lemma check_fg_color_alone (text : list string) (f : string) :
  check_fg_color (with_str "f" f (default_args text)) = Raise TypeError.
Proof. reflexivity. Qed.

(** C3, as the code has it: with [--f] given, [check_fg_color] validates and
    returns the background option [b]: the foreground 112233 resolves to
    the background 445566, and raises TypeError when no [--b] is given. *)
Theorem check_fg_color_reads_background :
  check_fg_color
    (with_str "f" "112233" (with_str "b" "445566" (default_args ["HELLO"])))
    = Ret "445566" /\
  check_fg_color (with_str "f" "112233" (default_args ["HELLO"]))
    = Raise TypeError /\
  check_fg_color
    (with_str "f" "112233" (with_flag "bR" (default_args ["HELLO"])))
    = Raise TypeError.
Proof. repeat split. Qed.

(** A background colour in which the search finds nothing raises. *)
Lemma check_bg_color_unmatched (text : list string) (b : string) :
  (String.length b < 6)%nat \/ no_hex b = true ->
  check_bg_color (with_str "b" b (default_args text)) = Raise AttributeError.
Proof.
  intros Hb. unfold check_bg_color.
  replace (getattr (with_str "b" b (default_args text)) "b")
    with (Ret (VStr b)) by reflexivity.
  cbn [mbind outcome_bind is_not_None].
  destruct Hb as [Hlen | Hno].
  - rewrite validate_short_raises by exact Hlen. reflexivity.
  - rewrite validate_no_hex_raises by exact Hno. reflexivity.
Qed.

(** Six digits followed by anything reach the exit code. *)
Lemma check_bg_color_trailing (text : list string) (b : string)
    (c : ascii) (t : string) :
  String.length b = 6%nat ->
  all_hex b = true ->
  check_bg_color (with_str "b" (b +:+ String c t) (default_args text))
  = Exit EXIT_INVALID_BG.
Proof.
  intros Hlen Hhex. unfold check_bg_color.
  replace (getattr (with_str "b" (b +:+ String c t) (default_args text)) "b")
    with (Ret (VStr (b +:+ String c t))) by reflexivity.
  cbn [mbind outcome_bind is_not_None].
  rewrite validate_trailing_garbage by assumption. reflexivity.
Qed.

(** C5, as the code has it: a background colour in which the search finds no
    run of six digits makes [validate_html_color] call [group] on None, an
    AttributeError and not [exit(EXIT_INVALID_BG)]; an invalid foreground
    is never looked at, the run raises TypeError without [--b] and returns
    the background colour with a valid [--b].  Only garbage around six
    digits reaches the exit code. *)
Theorem invalid_color_outcomes :
  check_bg_color (with_str "b" "12345" (default_args ["HELLO"]))
    = Raise AttributeError /\
  check_bg_color (with_str "b" "GGHHII" (default_args ["HELLO"]))
    = Raise AttributeError /\
  check_fg_color (with_str "f" "12345" (default_args ["HELLO"]))
    = Raise TypeError /\
  check_fg_color
    (with_str "f" "GGHHII" (with_str "b" "FFFFFF" (default_args ["HELLO"])))
    = Ret "FFFFFF" /\
  check_bg_color (with_str "b" "FF0000zz" (default_args ["HELLO"]))
    = Exit EXIT_INVALID_BG /\
  check_fg_color
    (with_str "f" "FF0000" (with_str "b" "FF0000zz" (default_args ["HELLO"])))
    = Exit EXIT_INVALID_FG.
Proof. repeat split. Qed.

(** C6, as the code has it: the defaults are the flag names [fK] and [bW],
    which [sanitize_html_color] does not match; with no colour selected both
    checks raise AttributeError and so does the whole run. *)
Theorem default_colors_raise :
  (forall text : list string,
     check_fg_color (default_args text) = Raise AttributeError) /\
  (forall text : list string,
     check_bg_color (default_args text) = Raise AttributeError) /\
  sanitize_html_color DEFAULT_FGC = Raise AttributeError /\
  sanitize_html_color DEFAULT_BGC = Raise AttributeError /\
  main (default_args ["HELLO"]) 80 24 (100, 20) = Raise AttributeError.
Proof. repeat split. Qed.

(** Selecting black and white by their flags gives the documented values. *)
Example explicit_black_on_white :
  check_fg_color (with_flag "fK" (default_args ["HELLO"])) = Ret "000000" /\
  check_bg_color (with_flag "bW" (default_args ["HELLO"])) = Ret "FFFFFF".
Proof. split; reflexivity. Qed.

(** * Further properties *)

(** ** Prefixes and suffixes *)

Lemma hash_class_not_hex (c : ascii) :
  hash_class c = true -> hex_class c = false.
Proof. destruct c as [[] [] [] [] [] [] [] []]; vm_compute; congruence. Qed.

Lemma length_drop (n : nat) : forall s : string,
  String.length (drop n s) = (String.length s - n)%nat.
Proof.
  induction n as [|n IH]; intros [|c s]; cbn; try reflexivity.
  apply IH.
Qed.

Lemma length_take (n : nat) : forall s : string,
  (n <= String.length s)%nat -> String.length (take n s) = n.
Proof.
  induction n as [|n IH]; intros [|c s] Hn; cbn in *; try reflexivity; try lia.
  rewrite IH by lia. reflexivity.
Qed.

Lemma take_all (s : string) : take (String.length s) s = s.
Proof. induction s as [|c s IH]; cbn; [reflexivity | rewrite IH; reflexivity]. Qed.

Lemma take_app (s t : string) : take (String.length s) (s +:+ t) = s.
Proof.
  induction s as [|c s IH].
  - change ("" +:+ t) with t. destruct t; reflexivity.
  - change (String c s +:+ t) with (String c (s +:+ t)).
    cbn [String.length take]. rewrite IH. reflexivity.
Qed.

Lemma consumed_drop (n : nat) (s : string) :
  (n <= String.length s)%nat -> consumed s (drop n s) = take n s.
Proof.
  intros Hn. unfold consumed. rewrite length_drop. f_equal. lia.
Qed.

Lemma consumed_cons_drop (n : nat) (c : ascii) (s : string) :
  (n <= String.length s)%nat ->
  consumed (String c s) (drop n s) = String c (take n s).
Proof.
  intros Hn. unfold consumed. rewrite length_drop.
  replace (String.length (String c s) - (String.length s - n))%nat
    with (S n) by (cbn; lia).
  reflexivity.
Qed.

(** ** Six digits through the matcher *)

Section MatcherHex.
Context {A : Type}.
Implicit Types (r : regex) (s : string) (caps : list (string * string)).
Implicit Types (k : string -> list (string * string) -> option A).

Lemma rmatch_group name r s caps k :
  rmatch (Group name r) s caps k =
  rmatch r s caps (fun s' caps' => k s' ((name, consumed s s') :: caps')).
Proof. reflexivity. Qed.

Lemma rmatch_times_hex n : forall s caps k,
  rmatch (Times n (Class hex_class)) s caps k =
  if (n <=? String.length s)%nat && all_hex (take n s)
  then k (drop n s) caps else None.
Proof.
  induction n as [|n IH]; intros s caps k; [reflexivity |].
  rewrite rmatch_times_S, rmatch_class.
  destruct s as [|c s]; [reflexivity |].
  cbn [String.length take drop all_hex Nat.leb].
  destruct (hex_class c); [| rewrite andb_false_r; reflexivity].
  rewrite IH. reflexivity.
Qed.
End MatcherHex.

Lemma hex_run6_hash (c : ascii) (s : string) :
  hash_class c = true -> hex_run6 (String c s) = false.
Proof.
  intros Hh. unfold hex_run6. cbn [take all_hex].
  rewrite (hash_class_not_hex c Hh). apply andb_false_r.
Qed.

Lemma hex_run6_le (s : string) :
  hex_run6 s = true -> (6 <= String.length s)%nat.
Proof.
  unfold hex_run6. intros H. apply andb_prop in H as [H _].
  apply Nat.leb_le in H. exact H.
Qed.

(** What [sanitize_html_color] does, by the head of the string. *)
Lemma sanitize_head (s : string) :
  sanitize_html_color s =
  if hex_run6 (strip_hash s) then Ret (take 6 (strip_hash s))
  else Raise AttributeError.
Proof.
  unfold sanitize_html_color, re_match, pat_sanitize.
  rewrite rmatch_cat, rmatch_opt, rmatch_class.
  rewrite !rmatch_group, !rmatch_times_hex. fold (hex_run6 s).
  destruct s as [|c s]; [reflexivity |].
  unfold strip_hash. destruct (hash_class c) eqn:Hh.
  - rewrite rmatch_group, rmatch_times_hex. fold (hex_run6 s).
    rewrite (hex_run6_hash c s Hh).
    destruct (hex_run6 s) eqn:Hr; [| reflexivity].
    unfold m_group. cbn [groups assoc]. rewrite String.eqb_refl.
    rewrite consumed_drop by (apply hex_run6_le; exact Hr). reflexivity.
  - destruct (hex_run6 (String c s)) eqn:Hr; [| reflexivity].
    unfold m_group. cbn [groups assoc]. rewrite String.eqb_refl.
    rewrite consumed_drop by (apply hex_run6_le; exact Hr). reflexivity.
Qed.

(** A match of the validation pattern at the head of [s]. *)
Lemma validate_match_formula (s : string) :
  re_match pat_validate s =
  if hex_run6 (strip_hash s)
  then Some (MatchObj (take (if has_hash s then 7 else 6) s) [])
  else None.
Proof.
  unfold re_match, pat_validate.
  rewrite rmatch_cat, rmatch_opt, rmatch_class, !rmatch_times_hex.
  fold (hex_run6 s).
  destruct s as [|c s]; [reflexivity |].
  unfold strip_hash. destruct (hash_class c) eqn:Hh.
  - rewrite rmatch_times_hex. fold (hex_run6 s).
    rewrite (hex_run6_hash c s Hh).
    destruct (hex_run6 s) eqn:Hr; [| reflexivity].
    rewrite consumed_cons_drop by (apply hex_run6_le; exact Hr).
    cbn [has_hash]. rewrite Hh. reflexivity.
  - destruct (hex_run6 (String c s)) eqn:Hr; [| reflexivity].
    rewrite consumed_drop by (apply hex_run6_le; exact Hr).
    cbn [has_hash]. rewrite Hh. reflexivity.
Qed.

Lemma sub_len2 (n : nat) : (S (S n) - n = 2)%nat.
Proof. lia. Qed.

(** What [html_to_888] does, by the head of the string. *)
Lemma html_to_888_head (s : string) :
  html_to_888 s =
  if hex_run6 s then Ret (rgb_by_groups (take 6 s)) else Raise AttributeError.
Proof.
  unfold hex_run6.
  destruct s as [|c1 [|c2 [|c3 [|c4 [|c5 [|c6 rest]]]]]];
    unfold html_to_888, re_match, pat_888; cbn;
    repeat match goal with
    | |- context [hex_class ?c] => destruct (hex_class c) eqn:?; cbn
    end; try reflexivity.
  rewrite !sub_len2. cbn [take].
  unfold hex_byte_to_int. cbn.
  rewrite !hex_digit_base16 by assumption. cbn.
  unfold rgb_by_groups. cbn.
  change (16 ^ Z.of_nat 1) with 16. change (16 ^ Z.of_nat 0) with 1.
  f_equal. f_equal; [f_equal |]; lia.
Qed.

Lemma validate_match_well_formed (s : string) (m : match_obj) :
  re_match pat_validate s = Some m -> well_formed (group0 m) = true.
Proof.
  rewrite validate_match_formula.
  destruct (hex_run6 (strip_hash s)) eqn:Hr; [| discriminate].
  intros [= <-]. cbn [group0].
  pose proof (hex_run6_le _ Hr) as Hle.
  unfold hex_run6 in Hr. apply andb_prop in Hr as [_ Hhex].
  unfold well_formed.
  destruct s as [|c s]; [cbn in Hle; lia |].
  unfold strip_hash in Hle, Hhex. cbn [has_hash].
  destruct (hash_class c) eqn:Hh.
  - change (take 7 (String c s)) with (String c (take 6 s)).
    unfold strip_hash. rewrite Hh.
    rewrite length_take, Hhex by exact Hle. reflexivity.
  - change (take 6 (String c s)) with (String c (take 5 s)) at 1 2.
    unfold strip_hash. rewrite Hh.
    change (String c (take 5 s)) with (take 6 (String c s)).
    rewrite length_take, Hhex by exact Hle. reflexivity.
Qed.

Lemma validate_search_well_formed (s : string) : forall m : match_obj,
  re_search pat_validate s = Some m -> well_formed (group0 m) = true.
Proof.
  induction s as [|c s IH]; intros m; cbn [re_search].
  - destruct (re_match pat_validate "") eqn:Hm; [| discriminate].
    intros [= <-]. exact (validate_match_well_formed _ _ Hm).
  - destruct (re_match pat_validate (String c s)) eqn:Hm.
    + intros [= <-]. exact (validate_match_well_formed _ _ Hm).
    + apply IH.
Qed.

Lemma has_hex_run_head (s : string) :
  has_hex_run s = false -> hex_run6 s = false.
Proof.
  destruct s; cbn [has_hex_run]; intros H; apply orb_false_elim in H; apply H.
Qed.

Lemma validate_search_none (s : string) :
  has_hex_run s = false -> re_search pat_validate s = None.
Proof.
  induction s as [|c s IH]; intros Hno.
  - reflexivity.
  - cbn [has_hex_run] in Hno. apply orb_false_elim in Hno as [Hhead Htail].
    cbn [re_search]. rewrite validate_match_formula.
    replace (hex_run6 (strip_hash (String c s))) with false.
    + apply IH, Htail.
    + unfold strip_hash. destruct (hash_class c).
      * symmetry. apply has_hex_run_head, Htail.
      * symmetry. exact Hhead.
Qed.

Lemma validate_search_some (s : string) :
  has_hex_run s = true -> is_Some (re_search pat_validate s).
Proof.
  induction s as [|c s IH]; intros Hrun.
  - discriminate.
  - cbn [re_search]. rewrite validate_match_formula.
    destruct (hex_run6 (strip_hash (String c s))) eqn:Hr; [eauto |].
    apply IH. cbn [has_hex_run] in Hrun.
    unfold strip_hash in Hr. destruct (hash_class c) eqn:Hh.
    + rewrite (hex_run6_hash c s Hh) in Hrun. exact Hrun.
    + rewrite Hr in Hrun. exact Hrun.
Qed.

Lemma well_formed_run (s : string) :
  well_formed s = true -> hex_run6 (strip_hash s) = true.
Proof.
  unfold well_formed, hex_run6. intros H. apply andb_prop in H as [Hlen Hhex].
  apply Nat.eqb_eq in Hlen. rewrite Hlen. cbn [Nat.leb andb].
  rewrite <- Hlen, take_all. exact Hhex.
Qed.

Lemma length_strip_hash (s : string) :
  (String.length (strip_hash s) <= String.length s)%nat.
Proof. destruct s as [|c s]; cbn; [lia |]. destruct (hash_class c); cbn; lia. Qed.

Lemma validate_match_whole (s : string) :
  well_formed s = true -> re_match pat_validate s = Some (MatchObj s []).
Proof.
  intros Hwf. rewrite validate_match_formula, (well_formed_run s Hwf).
  unfold well_formed in Hwf. apply andb_prop in Hwf as [Hlen _].
  apply Nat.eqb_eq in Hlen.
  replace (if has_hash s then 7 else 6)%nat with (String.length s).
  - rewrite take_all. reflexivity.
  - destruct s as [|c s]; [discriminate Hlen |].
    unfold strip_hash in Hlen. cbn [has_hash].
    destruct (hash_class c); cbn in Hlen |- *; lia.
Qed.

(** What [validate_html_color] does, by the shape of the string. *)
Lemma validate_cases (s : string) :
  validate_html_color (VStr s) =
  if has_hex_run s then Ret (well_formed s) else Raise AttributeError.
Proof.
  unfold validate_html_color. cbn [str_of mbind outcome_bind].
  destruct (has_hex_run s) eqn:Hrun.
  - destruct (well_formed s) eqn:Hwf.
    + assert (re_search pat_validate s = Some (MatchObj s [])) as ->.
      { destruct s; cbn [re_search]; rewrite validate_match_whole by exact Hwf;
          reflexivity. }
      cbn. rewrite String.eqb_refl. reflexivity.
    + destruct (validate_search_some s Hrun) as [m Hm]. rewrite Hm. cbn.
      f_equal. apply String.eqb_neq. intros E.
      apply validate_search_well_formed in Hm. congruence.
  - rewrite validate_search_none by exact Hrun. reflexivity.
Qed.

Lemma well_formed_has_run (s : string) :
  well_formed s = true -> has_hex_run s = true.
Proof.
  intros Hwf. pose proof (well_formed_run s Hwf) as Hr.
  destruct s as [|c s]; [discriminate Hr |].
  cbn [has_hex_run]. unfold strip_hash in Hr.
  destruct (hash_class c).
  - destruct s; cbn [has_hex_run]; rewrite Hr; apply orb_true_r.
  - rewrite Hr. reflexivity.
Qed.

(** [validate_html_color] on a string answers True exactly when the string is
    six hexadecimal digits and nothing else but for a [#] in front, answers
    False exactly when six digits in a row occur in it among other text, and
    raises AttributeError exactly when they occur nowhere, as in the empty
    string. *)
Theorem validate_html_color_outcomes (s : string) :
  (validate_html_color (VStr s) = Ret true <-> well_formed s = true) /\
  (validate_html_color (VStr s) = Ret false <->
   has_hex_run s = true /\ well_formed s = false) /\
  (validate_html_color (VStr s) = Raise AttributeError <->
   has_hex_run s = false).
Proof.
  rewrite validate_cases.
  destruct (has_hex_run s) eqn:Hrun; destruct (well_formed s) eqn:Hwf;
    try (apply well_formed_has_run in Hwf; congruence);
    repeat split; try discriminate; try tauto; intros [? ?]; discriminate.
Qed.

(** [sanitize_html_color] looks at the start of the string only: it gives
    the six characters that follow the [#] the string may begin with when
    they are all hexadecimal digits, whatever comes after them, and raises
    AttributeError in every other case, the empty string included. *)
Theorem sanitize_html_color_outcomes (code : string) :
  (forall c : string,
     sanitize_html_color code = Ret c <->
     hex_run6 (strip_hash code) = true /\ c = take 6 (strip_hash code)) /\
  (sanitize_html_color code = Raise AttributeError <->
   hex_run6 (strip_hash code) = false).
Proof.
  rewrite sanitize_head.
  destruct (hex_run6 (strip_hash code)); split.
  - intros c. split; [intros [= <-]; auto | intros [_ ->]; reflexivity].
  - split; discriminate.
  - intros c. split; [discriminate | intros [? _]; discriminate].
  - split; reflexivity.
Qed.

(** [html_to_888] reads the first six characters and nothing after them:
    when they are hexadecimal digits it gives their three groups of two read
    in base 16, and it raises AttributeError in every other case. *)
Theorem html_to_888_outcomes (s : string) :
  (forall rgb : Z * Z * Z,
     html_to_888 s = Ret rgb <->
     hex_run6 s = true /\ rgb = rgb_by_groups (take 6 s)) /\
  (html_to_888 s = Raise AttributeError <-> hex_run6 s = false).
Proof.
  rewrite html_to_888_head.
  destruct (hex_run6 s); split.
  - intros rgb. split; [intros [= <-]; auto | intros [_ ->]; reflexivity].
  - split; discriminate.
  - intros rgb. split; [discriminate | intros [? _]; discriminate].
  - split; reflexivity.
Qed.

(** ** Digits and case *)

Lemma base16_digit_bounds (c : ascii) : 0 <= base16_digit c <= 15.
Proof. destruct c as [[] [] [] [] [] [] [] []]; vm_compute; split; congruence. Qed.

Lemma digit_char_base16 (c : ascii) :
  hex_class c = true -> digit_char (base16_digit c) = upper c.
Proof. destruct c as [[] [] [] [] [] [] [] []]; vm_compute; congruence. Qed.

Lemma hex_class_upper (c : ascii) : hex_class (upper c) = hex_class c.
Proof. destruct c as [[] [] [] [] [] [] [] []]; reflexivity. Qed.

Lemma base16_digit_upper (c : ascii) :
  base16_digit (upper c) = base16_digit c.
Proof. destruct c as [[] [] [] [] [] [] [] []]; reflexivity. Qed.

Lemma hex_run6_all (s : string) :
  hex_run6 s = true ->
  String.length (take 6 s) = 6%nat /\ all_hex (take 6 s) = true.
Proof.
  intros Hr. pose proof (hex_run6_le s Hr) as Hle.
  unfold hex_run6 in Hr. apply andb_prop in Hr as [_ Hhex].
  split; [apply length_take; exact Hle | exact Hhex].
Qed.

(** ** What the colour functions give back *)

(** A sanitized colour is six hexadecimal digits: those that follow the
    [#] the code may begin with. *)
Lemma sanitize_yields_six_digits (code c : string) :
  sanitize_html_color code = Ret c ->
  String.length c = 6%nat /\ all_hex c = true /\ c = take 6 (strip_hash code).
Proof.
  rewrite sanitize_head.
  destruct (hex_run6 (strip_hash code)) eqn:Hr; [| discriminate].
  intros [= <-]. destruct (hex_run6_all _ Hr) as [Hlen Hhex]. auto.
Qed.

(** Sanitizing is idempotent: a colour that came out of
    [sanitize_html_color] is sanitized to itself. *)
Theorem sanitize_idempotent (code c : string) :
  sanitize_html_color code = Ret c -> sanitize_html_color c = Ret c.
Proof.
  intros H. apply sanitize_yields_six_digits in H as (Hlen & Hhex & _).
  apply sanitize_six; assumption.
Qed.

Lemma sanitize_idempotent_witness :
  sanitize_html_color "#a9A9a9 and more" = Ret "a9A9a9" /\
  sanitize_html_color "a9A9a9" = Ret "a9A9a9".
Proof.
  split; [reflexivity |].
  apply (sanitize_idempotent "#a9A9a9 and more"). reflexivity.
Defined.

Lemma rgb_by_groups_bounds (s : string) :
  let '(r, g, b) := rgb_by_groups s in
  0 <= r <= 255 /\ 0 <= g <= 255 /\ 0 <= b <= 255.
Proof.
  destruct s as [|c1 [|c2 [|c3 [|c4 [|c5 [|c6 rest]]]]]];
    unfold rgb_by_groups; cbn;
    try replace (substring 0 0 rest) with "" by (destruct rest; reflexivity);
    cbn;
    change (16 ^ Z.of_nat 1) with 16; change (16 ^ Z.of_nat 0) with 1;
    repeat match goal with
    | |- context [base16_digit ?c] =>
        let H := fresh in
        pose proof (base16_digit_bounds c) as H;
        generalize dependent (base16_digit c); intros
    end; lia.
Qed.

(** Whatever string [html_to_888] is given, the three components it gives
    back lie between 0 and 255. *)
Theorem html_to_888_bounds (s : string) (r g b : Z) :
  html_to_888 s = Ret (r, g, b) ->
  0 <= r <= 255 /\ 0 <= g <= 255 /\ 0 <= b <= 255.
Proof.
  rewrite html_to_888_head. destruct (hex_run6 s); [| discriminate].
  intros E. pose proof (rgb_by_groups_bounds (take 6 s)) as H.
  replace (rgb_by_groups (take 6 s)) with (r, g, b) in H by congruence.
  exact H.
Qed.

Lemma html_to_888_bounds_witness :
  html_to_888 "FF00ffzz" = Ret (255, 0, 255) /\
  0 <= 255 <= 255 /\ 0 <= 0 <= 255 /\ 0 <= 255 <= 255.
Proof.
  split; [reflexivity |].
  apply (html_to_888_bounds "FF00ffzz" 255 0 255). reflexivity.
Defined.

Lemma validate_true_well_formed (s : string) :
  validate_html_color (VStr s) = Ret true <-> well_formed s = true.
Proof.
  rewrite validate_cases. split.
  - destruct (has_hex_run s); [| discriminate]. intros [= E]. exact E.
  - intros Hwf. rewrite (well_formed_has_run s Hwf), Hwf. reflexivity.
Qed.

Lemma well_formed_take (s : string) :
  well_formed s = true -> take 6 (strip_hash s) = strip_hash s.
Proof.
  unfold well_formed. intros H. apply andb_prop in H as [Hlen _].
  apply Nat.eqb_eq in Hlen. rewrite <- Hlen. apply take_all.
Qed.

(** Whatever [validate_html_color] accepts, the rest of the pipeline takes:
    the colour is sanitized to the string without its [#], and that string
    is converted to its three groups of two digits. *)
Theorem validated_color_converts (s : string) :
  validate_html_color (VStr s) = Ret true ->
  sanitize_html_color s = Ret (strip_hash s) /\
  html_to_888 (strip_hash s) = Ret (rgb_by_groups (strip_hash s)).
Proof.
  intros Hv. apply validate_true_well_formed in Hv.
  pose proof (well_formed_run s Hv) as Hr.
  rewrite sanitize_head, html_to_888_head, Hr.
  rewrite (well_formed_take s Hv). split; reflexivity.
Qed.

Lemma validated_color_converts_witness :
  validate_html_color (VStr "#0080fF") = Ret true /\
  sanitize_html_color "#0080fF" = Ret "0080fF" /\
  html_to_888 "0080fF" = Ret (0, 128, 255).
Proof.
  split; [reflexivity |].
  apply (validated_color_converts "#0080fF"). reflexivity.
Defined.

Lemma length_append (s t : string) :
  String.length (s +:+ t) = (String.length s + String.length t)%nat.
Proof.
  induction s as [|c s IH]; [reflexivity |].
  change (String c s +:+ t) with (String c (s +:+ t)).
  cbn [String.length]. rewrite IH. reflexivity.
Qed.

Lemma hex_run6_app (s t : string) :
  String.length s = 6%nat -> all_hex s = true -> hex_run6 (s +:+ t) = true.
Proof.
  intros Hlen Hhex. unfold hex_run6.
  rewrite <- Hlen at 2. rewrite take_app, Hhex.
  rewrite length_append, Hlen. reflexivity.
Qed.

(** [sanitize_html_color] is laxer than [validate_html_color]: after six
    digits, with or without the [#], it takes any text and gives the six
    digits back. *)
Theorem sanitize_ignores_tail (s t : string) :
  String.length s = 6%nat ->
  all_hex s = true ->
  sanitize_html_color (s +:+ t) = Ret s /\
  sanitize_html_color ("#" +:+ s +:+ t) = Ret s.
Proof.
  intros Hlen Hhex. rewrite !sanitize_head.
  change ("#" +:+ s +:+ t) with (String "#" (s +:+ t)).
  change (strip_hash (String "#" (s +:+ t))) with (s +:+ t).
  assert (strip_hash (s +:+ t) = s +:+ t) as ->.
  { destruct s as [|c s]; [discriminate Hlen |].
    change (String c s +:+ t) with (String c (s +:+ t)).
    unfold strip_hash. apply all_hex_cons in Hhex as [Hc _].
    rewrite (hex_class_not_hash c Hc). reflexivity. }
  rewrite (hex_run6_app s t Hlen Hhex).
  rewrite <- Hlen, take_app. split; reflexivity.
Qed.

Lemma sanitize_ignores_tail_witness :
  String.length "FF0000" = 6%nat /\
  all_hex "FF0000" = true /\
  sanitize_html_color ("FF0000" +:+ "; drop") = Ret "FF0000" /\
  sanitize_html_color ("#" +:+ "FF0000" +:+ "; drop") = Ret "FF0000".
Proof.
  split; [reflexivity |]. split; [reflexivity |].
  apply (sanitize_ignores_tail "FF0000" "; drop"); reflexivity.
Defined.

Lemma length_upper_str (s : string) :
  String.length (upper_str s) = String.length s.
Proof. induction s as [|c s IH]; cbn; [reflexivity | rewrite IH; reflexivity]. Qed.

Lemma take_upper_str (n : nat) : forall s : string,
  take n (upper_str s) = upper_str (take n s).
Proof.
  induction n as [|n IH]; intros [|c s]; cbn; try reflexivity.
  rewrite IH. reflexivity.
Qed.

Lemma all_hex_upper_str (s : string) : all_hex (upper_str s) = all_hex s.
Proof.
  induction s as [|c s IH]; cbn; [reflexivity |].
  rewrite hex_class_upper, IH. reflexivity.
Qed.

Lemma hex_run6_upper_str (s : string) : hex_run6 (upper_str s) = hex_run6 s.
Proof.
  unfold hex_run6.
  rewrite length_upper_str, take_upper_str, all_hex_upper_str. reflexivity.
Qed.

Lemma base16_upper_str (s : string) : base16 (upper_str s) = base16 s.
Proof.
  induction s as [|c s IH]; cbn [upper_str base16]; [reflexivity |].
  rewrite base16_digit_upper, length_upper_str, IH. reflexivity.
Qed.

Lemma substring_upper_str (n m : nat) : forall s : string,
  substring n m (upper_str s) = upper_str (substring n m s).
Proof.
  revert m. induction n as [|n IHn]; intros m.
  - induction m as [|m IHm]; intros [|c s]; cbn; try reflexivity.
    rewrite IHm. reflexivity.
  - intros [|c s]; cbn; [reflexivity | apply IHn].
Qed.

Lemma rgb_by_groups_upper_str (s : string) :
  rgb_by_groups (upper_str s) = rgb_by_groups s.
Proof.
  unfold rgb_by_groups.
  rewrite !substring_upper_str, !base16_upper_str. reflexivity.
Qed.

(** [html_to_888] does not tell the case of the digits apart: a string and
    its upper-case form convert alike, or fail alike. *)
Theorem html_to_888_case_blind (s : string) :
  html_to_888 (upper_str s) = html_to_888 s.
Proof.
  rewrite !html_to_888_head, hex_run6_upper_str, take_upper_str,
    rgb_by_groups_upper_str.
  reflexivity.
Qed.

Lemma base16_pair_inj (a b a' b' : Z) :
  0 <= b <= 15 -> 0 <= b' <= 15 ->
  a * 16 + (b * 1 + 0) = a' * 16 + (b' * 1 + 0) -> a = a' /\ b = b'.
Proof. lia. Qed.

Lemma upper_of_digit (c c' : ascii) :
  hex_class c = true -> hex_class c' = true ->
  base16_digit c = base16_digit c' -> upper c = upper c'.
Proof.
  intros Hc Hc' E.
  rewrite <- (digit_char_base16 c Hc), <- (digit_char_base16 c' Hc'), E.
  reflexivity.
Qed.

(** Two colours of six digits that convert to the same triple are the same
    colour but for the case of their digits. *)
Theorem html_to_888_injective (s s' : string) :
  String.length s = 6%nat -> all_hex s = true ->
  String.length s' = 6%nat -> all_hex s' = true ->
  html_to_888 s = html_to_888 s' ->
  upper_str s = upper_str s'.
Proof.
  intros Hlen Hhex Hlen' Hhex'.
  rewrite (html_to_888_six s Hlen Hhex), (html_to_888_six s' Hlen' Hhex').
  six_digits s Hlen Hhex. six_digits s' Hlen' Hhex'.
  unfold rgb_by_groups. cbn.
  change (16 ^ Z.of_nat 1) with 16. change (16 ^ Z.of_nat 0) with 1.
  intros [= E1 E2 E3].
  apply base16_pair_inj in E1 as [? ?]; try apply base16_digit_bounds.
  apply base16_pair_inj in E2 as [? ?]; try apply base16_digit_bounds.
  apply base16_pair_inj in E3 as [? ?]; try apply base16_digit_bounds.
  cbn [upper_str].
  repeat match goal with
  | E : base16_digit ?x = base16_digit ?y |- _ =>
      apply upper_of_digit in E; [rewrite E; clear E | assumption ..]
  end.
  reflexivity.
Qed.

Lemma html_to_888_injective_witness :
  String.length "ff00aa" = 6%nat /\ all_hex "ff00aa" = true /\
  String.length "FF00Aa" = 6%nat /\ all_hex "FF00Aa" = true /\
  html_to_888 "ff00aa" = html_to_888 "FF00Aa" /\
  upper_str "ff00aa" = upper_str "FF00Aa".
Proof.
  repeat (split; [reflexivity |]).
  apply (html_to_888_injective "ff00aa" "FF00Aa"); reflexivity.
Defined.

(** ** The background colour given explicitly *)

(** A run with [--b] and no other colour option: the background check gives
    the colour without its [#] when it is six digits and nothing else,
    leaves with [EXIT_INVALID_BG] when six digits in a row occur in it
    among other text, and raises AttributeError when they occur nowhere. *)
Theorem check_bg_color_formula (text : list string) (b : string) :
  check_bg_color (with_str "b" b (default_args text)) =
  if has_hex_run b then
    if well_formed b then Ret (strip_hash b) else Exit EXIT_INVALID_BG
  else Raise AttributeError.
Proof.
  unfold check_bg_color.
  replace (getattr (with_str "b" b (default_args text)) "b")
    with (Ret (VStr b)) by reflexivity.
  cbn [mbind outcome_bind is_not_None].
  rewrite validate_cases.
  destruct (has_hex_run b); [| reflexivity].
  cbn [mbind outcome_bind].
  destruct (well_formed b) eqn:Hwf; [| reflexivity].
  after_validation.
  rewrite sanitize_head, (well_formed_run b Hwf), (well_formed_take b Hwf).
  reflexivity.
Qed.

(** ** What the colour checks return *)

Lemma pick_color_no_exit (args : gmap string value)
    (color_in_hex : gmap string string) (ret color : string) (code : Z) :
  pick_color args color_in_hex ret color <> Exit code.
Proof.
  unfold pick_color, getattr, dict_get.
  destruct (args !! color) as [v|]; cbn [mbind outcome_bind]; [| discriminate].
  destruct (eq_True v); [| discriminate].
  destruct (color_in_hex !! color); discriminate.
Qed.

(** The loop over the preset flags never leaves through [exit]. *)
Lemma for_each_pick_color_no_exit (args : gmap string value)
    (color_in_hex : gmap string string) (colors : list string) :
  forall (ret : string) (code : Z),
    for_each (pick_color args color_in_hex) colors ret <> Exit code.
Proof.
  induction colors as [|color colors IH]; intros ret code;
    cbn [for_each]; [discriminate |].
  destruct (pick_color args color_in_hex ret color) eqn:E;
    cbn [mbind outcome_bind]; [apply IH | discriminate |].
  exfalso. exact (pick_color_no_exit _ _ _ _ _ E).
Qed.

Lemma validate_html_color_no_exit (v : value) (code : Z) :
  validate_html_color v <> Exit code.
Proof.
  destruct v; try discriminate. rewrite validate_cases.
  destruct (has_hex_run s); discriminate.
Qed.

Lemma sanitize_html_color_no_exit (s : string) (code : Z) :
  sanitize_html_color s <> Exit code.
Proof.
  rewrite sanitize_head. destruct (hex_run6 (strip_hash s)); discriminate.
Qed.

Lemma html_to_888_no_exit (s : string) (code : Z) :
  html_to_888 s <> Exit code.
Proof. rewrite html_to_888_head. destruct (hex_run6 s); discriminate. Qed.

Lemma str_of_no_exit (v : value) (code : Z) : str_of v <> Exit code.
Proof. destruct v; discriminate. Qed.

(** Split a bind on what its first computation did. *)
Ltac bind_cases :=
  match goal with
  | |- context [mbind _ ?m] =>
      let E := fresh "E" in
      destruct m eqn:E; cbn [mbind outcome_bind]
  end.

Lemma check_bg_color_exit_code (args : gmap string value) (code : Z) :
  check_bg_color args = Exit code -> code = EXIT_INVALID_BG.
Proof.
  unfold check_bg_color, getattr.
  destruct (args !! "b") as [b|]; cbn [mbind outcome_bind]; [| discriminate].
  destruct (is_not_None b).
  - destruct (validate_html_color b) as [[] | |] eqn:Ev;
      cbn [mbind outcome_bind]; try discriminate.
    + destruct (str_of b) as [s | |] eqn:Es; cbn [mbind outcome_bind negb];
        try discriminate.
      * bind_cases; try discriminate.
        -- intros H. exfalso. exact (sanitize_html_color_no_exit _ _ H).
        -- exfalso. exact (for_each_pick_color_no_exit _ _ _ _ _ E).
      * exfalso. exact (str_of_no_exit _ _ Es).
    + intros [= <-]. reflexivity.
    + exfalso. exact (validate_html_color_no_exit _ _ Ev).
  - cbn [mbind outcome_bind negb]. bind_cases; try discriminate.
    + intros H. exfalso. exact (sanitize_html_color_no_exit _ _ H).
    + exfalso. exact (for_each_pick_color_no_exit _ _ _ _ _ E).
Qed.

Lemma check_fg_color_exit_code (args : gmap string value) (code : Z) :
  check_fg_color args = Exit code -> code = EXIT_INVALID_FG.
Proof.
  unfold check_fg_color, getattr.
  destruct (args !! "f") as [f|]; cbn [mbind outcome_bind]; [| discriminate].
  destruct (is_not_None f).
  - destruct (args !! "b") as [b|]; cbn [mbind outcome_bind]; [| discriminate].
    destruct (validate_html_color b) as [[] | |] eqn:Ev;
      cbn [mbind outcome_bind]; try discriminate.
    + destruct (str_of b) as [s | |] eqn:Es; cbn [mbind outcome_bind negb];
        try discriminate.
      * bind_cases; try discriminate.
        -- intros H. exfalso. exact (sanitize_html_color_no_exit _ _ H).
        -- exfalso. exact (for_each_pick_color_no_exit _ _ _ _ _ E).
      * exfalso. exact (str_of_no_exit _ _ Es).
    + intros [= <-]. reflexivity.
    + exfalso. exact (validate_html_color_no_exit _ _ Ev).
  - cbn [mbind outcome_bind negb]. bind_cases; try discriminate.
    + intros H. exfalso. exact (sanitize_html_color_no_exit _ _ H).
    + exfalso. exact (for_each_pick_color_no_exit _ _ _ _ _ E).
Qed.

(** Both checks end in [sanitize_html_color]. *)
Lemma check_bg_color_sanitized (args : gmap string value) (c : string) :
  check_bg_color args = Ret c -> exists ret, sanitize_html_color ret = Ret c.
Proof.
  unfold check_bg_color.
  repeat (bind_cases; try discriminate). eauto.
Qed.

Lemma check_fg_color_sanitized (args : gmap string value) (c : string) :
  check_fg_color args = Ret c -> exists ret, sanitize_html_color ret = Ret c.
Proof.
  unfold check_fg_color.
  repeat (bind_cases; try discriminate). eauto.
Qed.

(** A colour that one of the checks returns is six digits. *)
Lemma checked_color_shape (args : gmap string value) (c : string) :
  check_fg_color args = Ret c \/ check_bg_color args = Ret c ->
  String.length c = 6%nat /\ all_hex c = true.
Proof.
  intros H.
  assert (exists ret, sanitize_html_color ret = Ret c) as [ret Hs].
  { destruct H as [H | H];
      [exact (check_fg_color_sanitized _ _ H)
      | exact (check_bg_color_sanitized _ _ H)]. }
  apply sanitize_yields_six_digits in Hs as (Hlen & Hhex & _). auto.
Qed.

(** Whatever the namespace holds, a colour that one of the two checks
    returns is six hexadecimal digits, and [html_to_888] converts it to three
    components between 0 and 255. *)
Theorem checked_color_is_six_digits (args : gmap string value) (c : string) :
  check_fg_color args = Ret c \/ check_bg_color args = Ret c ->
  String.length c = 6%nat /\ all_hex c = true /\
  exists r g b : Z,
    html_to_888 c = Ret (r, g, b) /\
    0 <= r <= 255 /\ 0 <= g <= 255 /\ 0 <= b <= 255.
Proof.
  intros H. destruct (checked_color_shape args c H) as [Hlen Hhex].
  split; [exact Hlen |]. split; [exact Hhex |].
  pose proof (html_to_888_six c Hlen Hhex) as E.
  pose proof (rgb_by_groups_bounds c) as Hb.
  destruct (rgb_by_groups c) as [[r g] b].
  exists r, g, b. split; [exact E | exact Hb].
Qed.

Lemma checked_color_is_six_digits_witness :
  check_bg_color (with_flag "bM" (default_args ["HELLO"])) = Ret "FF00ff" /\
  String.length "FF00ff" = 6%nat /\ all_hex "FF00ff" = true /\
  exists r g b : Z,
    html_to_888 "FF00ff" = Ret (r, g, b) /\
    0 <= r <= 255 /\ 0 <= g <= 255 /\ 0 <= b <= 255.
Proof.
  split; [reflexivity |].
  apply (checked_color_is_six_digits (with_flag "bM" (default_args ["HELLO"]))).
  right. reflexivity.
Defined.

(** ** The run *)

Lemma check_size_no_exit (args : gmap string value) (code : Z) :
  check_size args <> Exit code.
Proof. unfold check_size, getattr. destruct (args !! "s"); discriminate. Qed.

Lemma check_alpha_no_exit (args : gmap string value) (code : Z) :
  check_alpha args <> Exit code.
Proof.
  unfold check_alpha, getattr.
  destruct (args !! "alpha") as [[| | z | |]|]; cbn [mbind outcome_bind];
    try discriminate.
  destruct (255 <? z); [discriminate |]. destruct (z <? 0); discriminate.
Qed.

(** The run leaves through [exit] with one of the three codes only, and the
    code tells which step stopped it: the foreground check, the background
    check after a foreground that came back, or the fit check after both. *)
Theorem main_exit_codes (args : gmap string value) (c l : Z)
    (text_size : Z * Z) (code : Z) :
  main args c l text_size = Exit code ->
  (code = EXIT_INVALID_FG /\ check_fg_color args = Exit code) \/
  (code = EXIT_INVALID_BG /\ returns (check_fg_color args) = true /\
   check_bg_color args = Exit code) \/
  (code = EXIT_DOES_NOT_FIT /\ returns (check_fg_color args) = true /\
   returns (check_bg_color args) = true).
Proof.
  unfold main. destruct text_size as [tw th].
  cbn [get_terminal_pixel_size].
  destruct (check_fg_color args) as [fg | |] eqn:Efg;
    cbn [mbind outcome_bind]; [| discriminate |].
  - destruct (check_bg_color args) as [bg | |] eqn:Ebg;
      cbn [mbind outcome_bind]; [| discriminate |].
    + destruct (check_size args) as [sz | |] eqn:Esz;
        cbn [mbind outcome_bind]; [| discriminate |].
      * destruct (check_alpha args) as [al | |] eqn:Eal;
          cbn [mbind outcome_bind]; [| discriminate |].
        -- destruct (html_to_888 bg) as [rgb | |] eqn:Ergb;
             cbn [mbind outcome_bind]; [| discriminate |].
           ++ cbn. intros [= <-]. right. right. auto.
           ++ exfalso. exact (html_to_888_no_exit _ _ Ergb).
        -- exfalso. exact (check_alpha_no_exit _ _ Eal).
      * exfalso. exact (check_size_no_exit _ _ Esz).
    + intros [= <-]. right. left.
      rewrite (check_bg_color_exit_code _ _ Ebg) in *. auto.
  - intros [= <-]. left.
    rewrite (check_fg_color_exit_code _ _ Efg) in *. auto.
Qed.

Lemma main_exit_codes_witness :
  main (with_str "b" "FF0000zz" (with_flag "fK" (default_args ["HELLO"])))
    80 24 (100, 20) = Exit EXIT_INVALID_BG /\
  ((EXIT_INVALID_BG = EXIT_INVALID_FG /\
    check_fg_color
      (with_str "b" "FF0000zz" (with_flag "fK" (default_args ["HELLO"])))
    = Exit EXIT_INVALID_BG) \/
   (EXIT_INVALID_BG = EXIT_INVALID_BG /\
    returns
      (check_fg_color
         (with_str "b" "FF0000zz" (with_flag "fK" (default_args ["HELLO"]))))
    = true /\
    check_bg_color
      (with_str "b" "FF0000zz" (with_flag "fK" (default_args ["HELLO"])))
    = Exit EXIT_INVALID_BG) \/
   (EXIT_INVALID_BG = EXIT_DOES_NOT_FIT /\
    returns
      (check_fg_color
         (with_str "b" "FF0000zz" (with_flag "fK" (default_args ["HELLO"]))))
    = true /\
    returns
      (check_bg_color
         (with_str "b" "FF0000zz" (with_flag "fK" (default_args ["HELLO"]))))
    = true)).
Proof.
  split; [reflexivity |].
  apply (main_exit_codes _ 80 24 (100, 20)). reflexivity.
Defined.


(** ** Alpha *)

(** For every integer given as alpha the result is an integer between 0 and
    255: the argument itself inside that range, the nearer end outside. *)
Theorem check_alpha_clamps (args : gmap string value) (z : Z) :
  args !! "alpha" = Some (VInt z) ->
  exists a : Z,
    check_alpha args = Ret (VInt a) /\ 0 <= a <= 255 /\
    a = Z.max 0 (Z.min 255 z).
Proof.
  intros Ha. unfold check_alpha, getattr. rewrite Ha.
  cbn [mbind outcome_bind].
  destruct (Z.ltb_spec 255 z); [exists 255; split; [reflexivity | lia] |].
  destruct (Z.ltb_spec z 0); [exists 0; split; [reflexivity | lia] |].
  exists z. split; [reflexivity | lia].
Qed.

Lemma check_alpha_clamps_witness :
  <["alpha" := VInt 300]> (default_args ["HELLO"]) !! "alpha" = Some (VInt 300) /\
  exists a : Z,
    check_alpha (<["alpha" := VInt 300]> (default_args ["HELLO"]))
    = Ret (VInt a) /\ 0 <= a <= 255 /\ a = Z.max 0 (Z.min 255 300).
Proof.
  split; [reflexivity |].
  apply (check_alpha_clamps _ 300). reflexivity.
Defined.

Example check_alpha_examples :
  check_alpha (<["alpha" := VInt (-10)]> (default_args ["HELLO"])) = Ret (VInt 0) /\
  check_alpha (<["alpha" := VInt 300]> (default_args ["HELLO"])) = Ret (VInt 255) /\
  check_alpha (<["alpha" := VInt 128]> (default_args ["HELLO"])) = Ret (VInt 128) /\
  check_alpha (default_args ["HELLO"]) = Ret (VInt 255).
Proof. repeat split. Qed.

(** ** Point size, the output path *)

(** The size that comes back is never None, 0 or any other false value. *)
Theorem check_size_truthy (args : gmap string value) (v : value) :
  check_size args = Ret v -> truthy v = true.
Proof.
  unfold check_size, getattr.
  destruct (args !! "s") as [s|]; cbn [mbind outcome_bind]; [| discriminate].
  destruct (truthy s) eqn:Hs; intros [= <-]; [exact Hs | reflexivity].
Qed.

Lemma check_size_truthy_witness :
  check_size (with_size 0 (default_args ["HELLO"])) = Ret (VInt 45) /\
  truthy (VInt 45) = true.
Proof.
  split; [reflexivity |].
  apply (check_size_truthy (with_size 0 (default_args ["HELLO"]))).
  reflexivity.
Defined.

Lemma append_nonempty (s t : string) : t <> "" -> s +:+ t <> "".
Proof.
  intros Ht. destruct s as [|c s]; [exact Ht |].
  change (String c s +:+ t) with (String c (s +:+ t)). discriminate.
Qed.

(** The path that comes back is never empty or None: it is the path given
    when that is a true value, and otherwise, for a missing path as for an
    empty one, the temporary name with [.png] after it. *)
Theorem check_output_file_path (args : gmap string value)
    (tmp_name : string) (out_path ret : value) :
  args !! "out_path" = Some out_path ->
  check_output_file args tmp_name = Ret ret ->
  truthy ret = true /\
  ret = (if truthy out_path then out_path else VStr (tmp_name +:+ ".png")).
Proof.
  intros Ho. unfold check_output_file, getattr. rewrite Ho.
  cbn [mbind outcome_bind].
  destruct (truthy out_path) eqn:Ht; cbn [negb]; intros [= <-].
  - split; [exact Ht | reflexivity].
  - split; [| reflexivity]. cbn [truthy].
    apply negb_true_iff, String.eqb_neq, append_nonempty. discriminate.
Qed.

Lemma check_output_file_path_witness :
  with_str "out_path" "" (default_args ["HELLO"]) !! "out_path"
    = Some (VStr "") /\
  check_output_file (with_str "out_path" "" (default_args ["HELLO"]))
    "/tmp/tmpab12cd" = Ret (VStr "/tmp/tmpab12cd.png") /\
  truthy (VStr "/tmp/tmpab12cd.png") = true /\
  VStr "/tmp/tmpab12cd.png"
  = (if truthy (VStr "") then VStr "" else VStr ("/tmp/tmpab12cd" +:+ ".png")).
Proof.
  split; [reflexivity |]. split; [reflexivity |].
  apply (check_output_file_path
           (with_str "out_path" "" (default_args ["HELLO"]))
           "/tmp/tmpab12cd" (VStr "") (VStr "/tmp/tmpab12cd.png"));
    reflexivity.
Defined.

(** ** Position, for any namespace *)

Lemma contains_dom (args args' : gmap string value) (p : string) :
  dom args = dom args' -> contains args p = contains args' p.
Proof.
  intros Hdom. unfold contains. apply bool_decide_ext.
  rewrite <- !elem_of_dom, Hdom. reflexivity.
Qed.

Lemma first_contained_dom (args args' : gmap string value) (ps : list string)
    (ret : string) :
  dom args = dom args' ->
  first_contained args ps ret = first_contained args' ps ret.
Proof.
  intros Hdom. induction ps as [|p ps IH]; cbn [first_contained];
    [reflexivity |].
  rewrite (contains_dom args args' p Hdom), IH. reflexivity.
Qed.

(** The position depends on which attributes the namespace has and on
    nothing else: two namespaces with the same attribute names get the same
    position, whatever values the flags hold. *)
Theorem check_position_by_names (args args' : gmap string value) :
  dom args = dom args' -> check_position args = check_position args'.
Proof. intros Hdom. apply first_contained_dom, Hdom. Qed.

Lemma check_position_by_names_witness :
  dom (with_flag "pBR" (default_args ["HELLO"]))
    = dom (with_flag "pL" (default_args ["HELLO"])) /\
  check_position (with_flag "pBR" (default_args ["HELLO"]))
    = check_position (with_flag "pL" (default_args ["HELLO"])).
Proof.
  assert (dom (with_flag "pBR" (default_args ["HELLO"]))
          = dom (with_flag "pL" (default_args ["HELLO"]))) as Hdom.
  { unfold with_flag. rewrite !dom_insert_L.
    assert ("pBR" ∈ dom (default_args ["HELLO"])) as H1
      by (apply elem_of_dom; vm_compute; eauto).
    assert ("pL" ∈ dom (default_args ["HELLO"])) as H2
      by (apply elem_of_dom; vm_compute; eauto).
    set_solver. }
  split; [exact Hdom |].
  apply (check_position_by_names _ _ Hdom).
Defined.

Lemma first_contained_in (args : gmap string value) (ps : list string)
    (ret : string) :
  first_contained args ps ret = ret /\
    forallb (fun p => negb (contains args p)) ps = true \/
  In (first_contained args ps ret) ps /\
    contains args (first_contained args ps ret) = true.
Proof.
  induction ps as [|p ps IH]; cbn [first_contained forallb];
    [left; auto |].
  destruct (contains args p) eqn:Hp; cbn [negb andb].
  - right. split; [left; reflexivity | exact Hp].
  - destruct IH as [[E Hall] | [Hin Hc]]; [left; auto |].
    right. split; [right; exact Hin | exact Hc].
Qed.

(** The position is the default [tR] when the namespace has none of the nine
    position attributes, and otherwise one of the nine codes that is an
    attribute of the namespace. *)
Theorem check_position_code_or_default (args : gmap string value) :
  check_position args = DEFAULT_POS /\
    forallb (fun p => negb (contains args p)) POSITION_CODES = true \/
  In (check_position args) POSITION_CODES /\
    contains args (check_position args) = true.
Proof. apply first_contained_in. Qed.

Example check_position_empty : check_position ∅ = "tR".
Proof. reflexivity. Qed.

(** ** Terminal geometry, further *)

(** A terminal with at least one column and one row, cells at least one
    pixel wide and high and offsets that are not negative give a canvas at
    least as large as one cell in both directions. *)
Theorem get_terminal_pixel_size_positive
    (columns lines h_pix v_pix h_offset v_offset : Z) :
  0 < columns -> 0 < lines -> 0 < h_pix -> 0 < v_pix ->
  0 <= h_offset -> 0 <= v_offset ->
  let '(width, height) :=
    get_terminal_pixel_size columns lines h_pix v_pix h_offset v_offset in
  h_pix <= width /\ v_pix <= height.
Proof. intros. unfold get_terminal_pixel_size. nia. Qed.

Lemma get_terminal_pixel_size_positive_witness :
  let '(width, height) :=
    get_terminal_pixel_size 80 24 RETINA_HCELL_PIXELS RETINA_VCELL_PIXELS
      RETINA_H_OFFSET RETINA_V_OFFSET in
  RETINA_HCELL_PIXELS <= width /\ RETINA_VCELL_PIXELS <= height.
Proof.
  apply (get_terminal_pixel_size_positive 80 24 RETINA_HCELL_PIXELS
           RETINA_VCELL_PIXELS RETINA_H_OFFSET RETINA_V_OFFSET);
    unfold RETINA_HCELL_PIXELS, RETINA_VCELL_PIXELS, RETINA_H_OFFSET,
      RETINA_V_OFFSET; lia.
Defined.

(** With cells that are not zero pixels wide or high the canvas tells the
    terminal size: two terminals with the same canvas have the same columns
    and rows. *)
Theorem get_terminal_pixel_size_injective
    (columns lines columns' lines' h_pix v_pix h_offset v_offset : Z) :
  h_pix <> 0 -> v_pix <> 0 ->
  get_terminal_pixel_size columns lines h_pix v_pix h_offset v_offset =
  get_terminal_pixel_size columns' lines' h_pix v_pix h_offset v_offset ->
  columns = columns' /\ lines = lines'.
Proof.
  intros Hh Hv. unfold get_terminal_pixel_size. intros [= Ew Eh].
  split; nia.
Qed.

Lemma get_terminal_pixel_size_injective_witness :
  get_terminal_pixel_size 80 24 14 28 20 14 =
  get_terminal_pixel_size (40 + 40) (12 + 12) 14 28 20 14 /\
  80 = 40 + 40 /\ 24 = 12 + 12.
Proof.
  split; [reflexivity |].
  apply (get_terminal_pixel_size_injective 80 24 (40 + 40) (12 + 12)
           14 28 20 14); [lia | lia | reflexivity].
Defined.

(** ** The log handler *)

Lemma split_first_line_nonempty (message : string) :
  split_first_line message <> [].
Proof.
  destruct message as [|c rest]; cbn [split_first_line]; [discriminate |].
  destruct (Ascii.eqb c newline); [discriminate |].
  destruct (split_first_line rest); discriminate.
Qed.

Lemma join_split_first_line (message : string) :
  join (String newline "") (split_first_line message) = message.
Proof.
  induction message as [|c rest IH]; [reflexivity |].
  cbn [split_first_line]. destruct (Ascii.eqb_spec c newline) as [-> | Hc].
  - reflexivity.
  - destruct (split_first_line rest) as [|p [|q ps]] eqn:E.
    + exfalso. exact (split_first_line_nonempty rest E).
    + cbn [join] in IH |- *. rewrite IH. reflexivity.
    + cbn [join] in IH |- *. rewrite <- IH. reflexivity.
Qed.

(** A record whose level is not in the table is formatted as the base
    formatter made it, newlines and all, on any stream. *)
Theorem format_unknown_level (st : stream) (base : string) (levelno : Z) :
  level_map !! levelno = None -> format st base levelno = base.
Proof.
  intros Hl. unfold format. destruct (is_tty st); [| reflexivity].
  pose proof (join_split_first_line base) as Hj.
  destruct (split_first_line base) as [|p ps]; [reflexivity |].
  unfold colorize. rewrite Hl. exact Hj.
Qed.

Lemma format_unknown_level_witness :
  level_map !! 25 = None /\
  format (Stream (Some true) "") "NOTICE    : two
lines" 25 = "NOTICE    : two
lines".
Proof.
  split; [reflexivity |].
  apply (format_unknown_level (Stream (Some true) "")). reflexivity.
Defined.

Lemma append_empty_r (s : string) : s +:+ "" = s.
Proof.
  induction s as [|c s IH]; [reflexivity |].
  change (String c s +:+ "") with (String c (s +:+ "")).
  rewrite IH. reflexivity.
Qed.

Lemma append_assoc (s t u : string) : (s +:+ t) +:+ u = s +:+ t +:+ u.
Proof.
  induction s as [|c s IH]; [reflexivity |].
  change (String c s +:+ t) with (String c (s +:+ t)).
  change (String c (s +:+ t) +:+ u) with (String c ((s +:+ t) +:+ u)).
  rewrite IH. reflexivity.
Qed.

Lemma wrap_params (params : list string) :
  exists pre post : string,
    (pre = "" /\ post = "" \/
     (exists codes, pre = csi +:+ codes +:+ "m") /\ post = reset) /\
    forall message : string,
      match params with
      | [] => message
      | _ => csi +:+ join ";" params +:+ "m" +:+ message +:+ reset
      end = pre +:+ message +:+ post.
Proof.
  destruct params as [|p ps].
  - exists "", "". split; [left; auto |].
    intros message. rewrite append_empty_r. reflexivity.
  - exists (csi +:+ join ";" (p :: ps) +:+ "m"), reset.
    split; [right; eauto |].
    intros message. rewrite !append_assoc. reflexivity.
Qed.

(** [colorize] only wraps: for each level there are a prefix and a suffix,
    the same for all messages, and the result is the message between them;
    it never changes, cuts or repeats the text of the message.  The two are
    empty, or the prefix is an escape sequence and the suffix the reset. *)
Theorem colorize_wraps (levelno : Z) :
  exists pre post : string,
    (pre = "" /\ post = "" \/
     (exists codes, pre = csi +:+ codes +:+ "m") /\ post = reset) /\
    forall message : string,
      colorize message levelno = pre +:+ message +:+ post.
Proof.
  unfold colorize.
  destruct (level_map !! levelno) as [[[bg fg] bold]|].
  - apply wrap_params.
  - exact (wrap_params []).
Qed.

Lemma split_first_line_append (first rest : string) :
  one_line first = true ->
  split_first_line (first +:+ String newline rest) = [first; rest].
Proof.
  induction first as [|c first IH]; intros Hone.
  - change ("" +:+ String newline rest) with (String newline rest).
    reflexivity.
  - change (String c first +:+ String newline rest)
      with (String c (first +:+ String newline rest)).
    cbn [one_line] in Hone. apply andb_prop in Hone as [Hc Hone].
    cbn [split_first_line]. apply negb_true_iff in Hc. rewrite Hc.
    rewrite (IH Hone). reflexivity.
Qed.

(** On a stream that has an [isatty] method, whatever the method would
    answer, only the first line of the message is colorized: the newline
    and all that follows it, such as a traceback, stay as they are. *)
Theorem format_keeps_traceback (st : stream) (answer : bool)
    (first rest : string) (levelno : Z) :
  isatty st = Some answer ->
  one_line first = true ->
  format st (first +:+ String newline rest) levelno =
  colorize first levelno +:+ String newline rest.
Proof.
  intros Htty Hone. unfold format, is_tty. rewrite Htty.
  rewrite (split_first_line_append first rest Hone).
  reflexivity.
Qed.

Lemma format_keeps_traceback_witness :
  isatty (Stream (Some false) "") = Some false /\
  one_line "ERROR     : boom" = true /\
  format (Stream (Some false) "")
    ("ERROR     : boom" +:+ String newline "Traceback (most recent call last):")
    ERROR =
  colorize "ERROR     : boom" ERROR
    +:+ String newline "Traceback (most recent call last):".
Proof.
  split; [reflexivity |]. split; [reflexivity |].
  apply (format_keeps_traceback (Stream (Some false) "") false);
    reflexivity.
Defined.

(** What [emit] adds to the stream is the formatted record and one newline,
    after everything written before. *)
Lemma emit_appends (st : stream) (base : string) (levelno : Z) :
  written (emit st base levelno) =
  written st +:+ format st base levelno +:+ String newline "".
Proof.
  unfold emit. destruct (negb (is_tty st)); cbn [write written isatty];
    rewrite append_assoc; reflexivity.
Qed.
